(** * nornir_table_inventory: the flat-table inventory plugin

    A shallow embedding of [nornir_table_inventory/plugins/inventory/table.py]
    and the properties of its field mapping, connection-option extraction and
    inventory assembly.

    Conventions of the embedding:
    - a Python [str] is a [string] whose characters are the code points
      0..255;
    - a Python [int] is a [Z], a Python [float] a [spec_float] (IEEE 754
      without NaN payload); the text of a float ([repr]) is a parameter;
    - a [dict] is an association list in insertion order: iteration order
      decides which exception is raised first;
    - an exception is a value of [exn] returned through [result];
    - a raw row has string keys and scalar cells ([None], [bool], [int],
      [float], [str]).

    Left out: the calls to [logger.error], which change no result; the
    interpreter's limit on the number of digits [int()] and [str()] accept;
    the file readers [CSVInventory] and [ExcelInventory], which only produce
    the rows. *)

From Stdlib Require Import ZArith List String Ascii Bool Lia.
From Stdlib Require Import SpecFloat DecimalString.
Import ListNotations.
Open Scope string_scope.
Open Scope Z_scope.

(** ** Python values held by a table cell *)

Inductive value : Type :=
| VNone
| VBool (b : bool)
| VInt (z : Z)
| VFloat (f : spec_float)
| VStr (s : string).

(** Exceptions the module can raise. [KeyError] carries the missing key,
    [Exception] its message. *)
Inductive exn : Type :=
| ValueError
| TypeError
| OverflowError
| AttributeError
| KeyError (key : value)
| Exception (msg : string).

Inductive result (A : Type) : Type :=
| Ok (a : A)
| Err (e : exn).
Arguments Ok {A} a.
Arguments Err {A} e.

Definition bind {A B : Type} (m : result A) (k : A -> result B) : result B :=
  match m with
  | Ok a => k a
  | Err e => Err e
  end.

Declare Scope py_scope.
Delimit Scope py_scope with py.
Notation "x <- m ;; k" := (bind m (fun x => k))
  (at level 61, m at next level, right associativity) : py_scope.
Open Scope py_scope.

Fixpoint mapM {A B : Type} (f : A -> result B) (l : list A) : result (list B) :=
  match l with
  | [] => Ok []
  | a :: l' => b <- f a ;; bs <- mapM f l' ;; Ok (b :: bs)
  end.

(** ** Builtins on strings *)

Module Str.

(** [sub in s] *)
Fixpoint contains (sub s : string) : bool :=
  String.prefix sub s ||
  match s with
  | EmptyString => false
  | String _ s' => contains sub s'
  end.

(** [s.startswith(sub)] *)
Definition startswith (sub s : string) : bool := String.prefix sub s.

(** [s.replace(old, new)] for a non-empty [old]: the occurrences of [old]
    are replaced from left to right, without overlap. [skip] counts the
    characters of a matched occurrence that are still to be dropped. *)
Fixpoint replace_from (old new : string) (skip : nat) (s : string) : string :=
  match s with
  | EmptyString => EmptyString
  | String c s' =>
      match skip with
      | S n => replace_from old new n s'
      | O =>
          if String.prefix old s
          then new ++ replace_from old new (Nat.pred (String.length old)) s'
          else String c (replace_from old new O s')
      end
  end.

Definition replace (old new s : string) : string := replace_from old new O s.

(** [s.split(sep)] for a one-character separator. *)
Fixpoint split (sep : ascii) (s : string) : list string :=
  match s with
  | EmptyString => [EmptyString]
  | String c s' =>
      if Ascii.eqb c sep then EmptyString :: split sep s'
      else match split sep s' with
           | h :: t => String c h :: t
           | [] => [String c EmptyString]
           end
  end.

Definition lower_char (c : ascii) : ascii :=
  let n := nat_of_ascii c in
  if ((65 <=? n) && (n <=? 90))%nat then ascii_of_nat (n + 32)
  else if ((192 <=? n) && (n <=? 222) && negb (n =? 215))%nat
       then ascii_of_nat (n + 32)
       else c.

(** [s.lower()] *)
Fixpoint lower (s : string) : string :=
  match s with
  | EmptyString => EmptyString
  | String c s' => String (lower_char c) (lower s')
  end.

(** Membership of a string in a list of strings: [s in l]. *)
Definition mem (s : string) (l : list string) : bool :=
  existsb (String.eqb s) l.

(** Characters that [int()] strips around a numeral. *)
Definition is_space (c : ascii) : bool :=
  let n := nat_of_ascii c in
  (((9 <=? n) && (n <=? 13)) || (n =? 32) || (n =? 133) || (n =? 160))%nat.

(** White space in the sense of [str.isspace]. *)
Definition isspace_char (c : ascii) : bool :=
  let n := nat_of_ascii c in
  (((9 <=? n) && (n <=? 13)) || ((28 <=? n) && (n <=? 32)) ||
   (n =? 133) || (n =? 160))%nat.

(** [s.isspace()]: a non-empty string of white space. *)
Definition isspace (s : string) : bool :=
  match s with
  | EmptyString => false
  | String _ _ => forallb isspace_char (list_ascii_of_string s)
  end.

Definition digit_of (c : ascii) : option Z :=
  let n := nat_of_ascii c in
  if ((48 <=? n) && (n <=? 57))%nat then Some (Z.of_nat (n - 48)) else None.

Fixpoint lstrip (s : string) : string :=
  match s with
  | String c s' => if is_space c then lstrip s' else s
  | EmptyString => EmptyString
  end.

Fixpoint all_space (s : string) : bool :=
  match s with
  | EmptyString => true
  | String c s' => is_space c && all_space s'
  end.

(** Digits of a decimal numeral after its first digit: a single underscore
    may separate two digits; white space may follow the last digit. *)
Fixpoint digits_from (acc : Z) (s : string) : option Z :=
  match s with
  | EmptyString => Some acc
  | String c s' =>
      match digit_of c with
      | Some d => digits_from (10 * acc + d) s'
      | None =>
          if Ascii.eqb c "_"
          then match s' with
               | String c' s'' =>
                   match digit_of c' with
                   | Some d => digits_from (10 * acc + d) s''
                   | None => None
                   end
               | EmptyString => None
               end
          else if all_space s then Some acc else None
      end
  end.

Definition unsigned_of (s : string) : option Z :=
  match s with
  | String c s' =>
      match digit_of c with
      | Some d => digits_from d s'
      | None => None
      end
  | EmptyString => None
  end.

(** [int(s)] in base ten; [None] stands for [ValueError]. *)
Definition to_int (s : string) : option Z :=
  match lstrip s with
  | String "+" s' => unsigned_of s'
  | String "-" s' => option_map Z.opp (unsigned_of s')
  | s' => unsigned_of s'
  end.

(** [str(z)] for an integer. *)
Definition of_int (z : Z) : string := NilZero.string_of_int (Z.to_int z).

End Str.

(** ** Builtins on floats and on cell values *)

Module Float.

(** [math.isnan] *)
Definition isnan (f : spec_float) : bool :=
  match f with
  | S754_nan => true
  | _ => false
  end.

(** [bool(f)]: only the two zeros are false. *)
Definition truth (f : spec_float) : bool :=
  match f with
  | S754_zero _ => false
  | _ => true
  end.

(** [int(f)]: truncation towards zero. *)
Definition to_int (f : spec_float) : result Z :=
  match f with
  | S754_zero _ => Ok 0
  | S754_nan => Err ValueError
  | S754_infinity _ => Err OverflowError
  | S754_finite s m e =>
      let a := if 0 <=? e then Zpos m * 2 ^ e else Zpos m / 2 ^ (- e) in
      Ok (if s then - a else a)
  end.

End Float.

(** Numbers as Python compares them: [m * 2 ^ e], an infinity, or NaN. *)
Inductive num : Type :=
| NFin (m e : Z)
| NInf (negative : bool)
| NNan.

Definition num_of (v : value) : option num :=
  match v with
  | VBool b => Some (NFin (Z.b2z b) 0)
  | VInt z => Some (NFin z 0)
  | VFloat (S754_zero _) => Some (NFin 0 0)
  | VFloat (S754_finite s m e) => Some (NFin (if s then Zneg m else Zpos m) e)
  | VFloat (S754_infinity s) => Some (NInf s)
  | VFloat S754_nan => Some NNan
  | VNone | VStr _ => None
  end.

Definition num_eqb (a b : num) : bool :=
  match a, b with
  | NFin m1 e1, NFin m2 e2 =>
      let e := Z.min e1 e2 in
      m1 * 2 ^ (e1 - e) =? m2 * 2 ^ (e2 - e)
  | NInf s1, NInf s2 => Bool.eqb s1 s2
  | _, _ => false
  end.

(** [x == y] on scalars. *)
Definition py_eqb (x y : value) : bool :=
  match x, y with
  | VNone, VNone => true
  | VStr a, VStr b => String.eqb a b
  | _, _ =>
      match num_of x, num_of y with
      | Some a, Some b => num_eqb a b
      | _, _ => false
      end
  end.

(** [bool(x)], the test of [if x:]. *)
Definition truth (x : value) : bool :=
  match x with
  | VNone => false
  | VBool b => b
  | VInt z => negb (z =? 0)
  | VFloat f => Float.truth f
  | VStr s => negb (String.eqb s "")
  end.

(** [int(x)] *)
Definition py_int (x : value) : result Z :=
  match x with
  | VNone => Err TypeError
  | VBool b => Ok (Z.b2z b)
  | VInt z => Ok z
  | VFloat f => Float.to_int f
  | VStr s =>
      match Str.to_int s with
      | Some z => Ok z
      | None => Err ValueError
      end
  end.

(** ** Dictionaries *)

Section Dict.
Variables (K V : Type) (eqb : K -> K -> bool).

Fixpoint lookup (k : K) (d : list (K * V)) : option V :=
  match d with
  | [] => None
  | (k', v) :: d' => if eqb k' k then Some v else lookup k d'
  end.

(** [d[k] = v]: an existing key keeps its place (and its key object). *)
Fixpoint setitem (k : K) (v : V) (d : list (K * V)) : list (K * V) :=
  match d with
  | [] => [(k, v)]
  | (k', v') :: d' =>
      if eqb k' k then (k', v) :: d' else (k', v') :: setitem k v d'
  end.

End Dict.
Arguments lookup {K V} eqb k d.
Arguments setitem {K V} eqb k v d.

(** A dict with string keys and scalar values: a raw row, a data mapping,
    the extras of a connection. *)
Definition dict : Type := list (string * value).
Definition row : Type := dict.

(** [d.get(k)] and [d.get(k, default)] *)
Definition get_default (d : dict) (k : string) (default : value) : value :=
  match lookup String.eqb k d with
  | Some v => v
  | None => default
  end.
Definition get (d : dict) (k : string) : value := get_default d k VNone.

(** [d[k]] *)
Definition getitem (d : dict) (k : string) : result value :=
  match lookup String.eqb k d with
  | Some v => Ok v
  | None => Err (KeyError (VStr k))
  end.

(** Monadic left fold: a [for] loop whose body may raise. *)
Fixpoint foldM {A S : Type} (f : S -> A -> result S) (l : list A) (s : S) : result S :=
  match l with
  | [] => Ok s
  | a :: l' => s' <- f s a ;; foldM f l' s'
  end.

(** ** The containers of [nornir.core.inventory] *)

(** What a [dict.get] on a nested option dict can return. *)
Inductive pyobj : Type :=
| Scalar (v : value)
| Mapping (d : dict).

Record ConnectionOptions : Type := mkConnectionOptions {
  co_hostname : pyobj;
  co_port : pyobj;
  co_username : pyobj;
  co_password : pyobj;
  co_platform : pyobj;
  co_extras : pyobj
}.

Record Defaults : Type := mkDefaults {
  d_hostname : value;
  d_port : value;
  d_username : value;
  d_password : value;
  d_platform : value;
  d_data : dict;
  d_connection_options : list (string * ConnectionOptions)
}.

(** Modelled from the spec: the empty [Defaults()] of nornir (a class outside
    the repository), every field unset. *)
Definition Defaults_empty : Defaults :=
  mkDefaults VNone VNone VNone VNone VNone [] [].

Inductive kind : Type := Host | Group.

(** A [Host] or a [Group]. [e_groups] holds group names; once resolved, each
    name stands for the live [Group] stored under that key of the groups
    mapping (a string key is equal to no key but the same string). *)
Record element : Type := mkElement {
  e_typ : kind;
  e_name : value;
  e_hostname : value;
  e_port : value;
  e_username : value;
  e_password : value;
  e_platform : value;
  e_data : dict;
  e_groups : list string;
  e_defaults : Defaults;
  e_connection_options : list (string * ConnectionOptions)
}.

(** The [groups] argument handed to the constructor: the raw cell when it was
    falsy, the split list otherwise. *)
Inductive groups_arg : Type :=
| Raw (v : value)
| Names (l : list string).

(** Modelled from the spec: the constructor of nornir's [Host] and [Group]
    (classes outside the repository) keeps the fields it is given and stores
    [groups or ParentGroups()]: a row with [groups=""] or without the field
    yields an empty parent list. *)
Definition mk (t : kind) (name hostname port username password platform : value)
    (data : dict) (groups : groups_arg) (defaults : Defaults)
    (connection_options : list (string * ConnectionOptions)) : element :=
  mkElement t name hostname port username password platform data
    (match groups with
     | Raw _ => []
     | Names l => l
     end)
    defaults connection_options.

Record Inventory : Type := mkInventory {
  inv_hosts : list (value * element);
  inv_groups : list (value * element);
  inv_defaults : Defaults
}.

(** A [repr] for rows that hold no float: the closed examples run with it. *)
Definition no_floats (f : spec_float) : string := "".

(** ** The module [table.py] *)

Section Table.

(** [repr] of a float, the text [str(x)] gives for a float [x]: a builtin
    of the interpreter, kept abstract. *)
Variable float_repr : spec_float -> string.

(** [str(x)] *)
Definition py_str (x : value) : string :=
  match x with
  | VNone => "None"
  | VBool true => "True"
  | VBool false => "False"
  | VInt z => Str.of_int z
  | VFloat f => float_repr f
  | VStr s => s
  end.

(** [_empty]: [x is None or (isinstance(x, float) and isnan(x)) or x == ""] *)
Definition _empty (x : value) : bool :=
  match x with VNone => true | _ => false end
  || match x with VFloat f => Float.isnan f | _ => false end
  || py_eqb x (VStr "").

(** [_get_connection_options] *)
Definition obj_get (c : list (string * pyobj)) (k : string) : pyobj :=
  match lookup String.eqb k c with
  | Some o => o
  | None => Scalar VNone
  end.

Definition _get_connection_options (data : list (string * list (string * pyobj)))
  : list (string * ConnectionOptions) :=
  fold_left
    (fun cp '(cn, c) =>
       setitem String.eqb cn
         (mkConnectionOptions (obj_get c "hostname") (obj_get c "port")
            (obj_get c "username") (obj_get c "password")
            (obj_get c "platform") (obj_get c "extras"))
         cp)
    data [].

Definition netmiko_prefix : string := "netmiko_".

(** [_get_data] *)
Definition _get_data (data : row) (isDefaults : bool) : dict :=
  let no_data_fields :=
    ["name"; "hostname"; "port"; "username"; "password"; "platform"] in
  let no_data_fields :=
    if isDefaults then (no_data_fields ++ ["groups"])%list else no_data_fields in
  fold_left
    (fun resp_data '(k, v) =>
       if negb (Str.mem k no_data_fields) && negb (Str.contains netmiko_prefix k)
       then setitem String.eqb k (if negb (_empty v) then v else VNone) resp_data
       else resp_data)
    data [].

Definition int_keys : list string :=
  ["timeout"; "conn_timeout"; "auth_timeout"; "banner_timeout";
   "blocking_timeout"; "session_timeout"].
Definition bool_keys : list string := ["fast_cli"].

(** The body of the loop of [_get_host_netmiko_options]. *)
Definition netmiko_step (extra_opts : dict) (kv : string * value) : result dict :=
  let '(k, v) := kv in
  if Str.contains netmiko_prefix k then
    let new_k := Str.replace netmiko_prefix "" k in
    if Str.mem new_k int_keys then
      z <- py_int v ;; Ok (setitem String.eqb new_k (VInt z) extra_opts)
    else if Str.mem new_k bool_keys then
      if Str.mem (Str.lower (py_str v)) ["0"; "false"; "none"]
      then Ok (setitem String.eqb new_k (VBool false) extra_opts)
      else Ok (setitem String.eqb new_k (VBool true) extra_opts)
    else
      if _empty v
      then Ok (setitem String.eqb new_k VNone extra_opts)
      else Ok (setitem String.eqb new_k v extra_opts)
  else Ok extra_opts.

(** [_get_host_netmiko_options] *)
Definition _get_host_netmiko_options (data : row)
  : result (list (string * ConnectionOptions)) :=
  extra_opts <- foldM netmiko_step data [] ;;
  match extra_opts with
  | _ :: _ =>
      Ok (_get_connection_options [("netmiko", [("extras", Mapping extra_opts)])])
  | [] => Ok []
  end.

(** [if x: x = str(x) if not _empty(x) else None] *)
Definition coerce_str (x : value) : value :=
  if truth x then (if negb (_empty x) then VStr (py_str x) else VNone) else x.

(** [if x: x = int(x) if not _empty(x) else None] *)
Definition coerce_int (x : value) : result value :=
  if truth x
  then (if negb (_empty x) then z <- py_int x ;; Ok (VInt z) else Ok VNone)
  else Ok x.

(** [_get_inventory_element] *)
Definition _get_inventory_element (typ : kind) (data : row) (defaults : Defaults)
  : result element :=
  let name := get data "name" in
  let hostname := get data "hostname" in
  let port := get_default data "port" (VInt 22) in
  let username := get data "username" in
  let password := get data "password" in
  let platform := get data "platform" in
  let groups := get data "groups" in
  let name := if truth name then VStr (py_str name) else name in
  let hostname := coerce_str hostname in
  port <- coerce_int port ;;
  let username := coerce_str username in
  let password := coerce_str password in
  let platform := coerce_str platform in
  groups <- (if truth groups
             then match groups with
                  | VStr s => Ok (Names (Str.split "," s))
                  | _ => Err AttributeError
                  end
             else Ok (Raw groups)) ;;
  let data' := _get_data data false in
  connection_options <- _get_host_netmiko_options data ;;
  Ok (mk typ name hostname port username password platform data' groups
        defaults connection_options).

(** [_get_defaults]: the coerced locals are computed, and the record is
    built from the row's own cells. *)
Definition _get_defaults (data : row) : result Defaults :=
  let name := get data "name" in
  let hostname := get data "hostname" in
  let port := get data "port" in
  let username := get data "username" in
  let password := get data "password" in
  let platform := get data "platform" in
  let name := if truth name then VStr (py_str name) else name in
  let hostname := coerce_str hostname in
  port <- coerce_int port ;;
  let username := coerce_str username in
  let password := coerce_str password in
  let platform := coerce_str platform in
  let data' := _get_data data false in
  connection_options <- _get_host_netmiko_options data ;;
  Ok (mkDefaults (get data "hostname") (get data "port") (get data "username")
        (get data "password") (get data "platform") data' connection_options).

(** ** [FlatDataInventory] *)

(** The three collections given to [__init__]. [defaults_data] is one row,
    the dict that [load] hands to [_get_defaults]; the empty dict is falsy. *)
Record FlatDataInventory : Type := mkFlatDataInventory {
  hosts_data : list row;
  groups_data : list row;
  defaults_data : row
}.

Definition name_error : exn := Exception "HOST name must not be empty".

(** The body of the two row loops of [load]:
    [if not _empty(r['name']): acc[r['name']] = _get_inventory_element(...)
     else: raise Exception(...)]. The [logger.error] call before the
    [raise] leaves no trace in the result and is not modelled. *)
Definition load_row (t : kind) (defaults : Defaults)
    (acc : list (value * element)) (r : row) : result (list (value * element)) :=
  n <- getitem r "name" ;;
  if negb (_empty n) then
    e <- _get_inventory_element t r defaults ;;
    Ok (setitem py_eqb n e acc)
  else Err name_error.

(** [ParentGroups([groups[g] for g in x.groups])] *)
Definition resolve (groups : list (value * element)) (names : list string)
  : result (list string) :=
  mapM (fun g =>
          match lookup py_eqb (VStr g) groups with
          | Some _ => Ok g
          | None => Err (KeyError (VStr g))
          end)
       names.

Definition set_groups (e : element) (gs : list string) : element :=
  mkElement e.(e_typ) e.(e_name) e.(e_hostname) e.(e_port) e.(e_username)
    e.(e_password) e.(e_platform) e.(e_data) gs e.(e_defaults)
    e.(e_connection_options).

(** [for x in d.values(): x.groups = ParentGroups([groups[g] for g in x.groups])] *)
Definition resolve_all (groups d : list (value * element))
  : result (list (value * element)) :=
  mapM (fun kv : value * element =>
          gs <- resolve groups (snd kv).(e_groups) ;;
          Ok (fst kv, set_groups (snd kv) gs))
       d.

(** [FlatDataInventory.load], the defaults step:
    [if self.defaults_data: defaults = _get_defaults(self.defaults_data)] *)
Definition load_defaults (self : FlatDataInventory) : result Defaults :=
  match self.(defaults_data) with
  | _ :: _ => _get_defaults self.(defaults_data)
  | [] => Ok Defaults_empty
  end.

(** [FlatDataInventory.load], the block under [if self.groups_data:]: the
    loop over the group rows, then the resolution of the parent groups. *)
Definition load_groups (self : FlatDataInventory) (defaults : Defaults)
  : result (list (value * element)) :=
  match self.(groups_data) with
  | _ :: _ =>
      groups <- foldM (load_row Group defaults) self.(groups_data) [] ;;
      resolve_all groups groups
  | [] => Ok []
  end.

(** [FlatDataInventory.load], the loop over the host rows and the resolution
    of the hosts' groups. *)
Definition load_hosts (self : FlatDataInventory) (defaults : Defaults)
    (groups : list (value * element)) : result (list (value * element)) :=
  hosts <- foldM (load_row Host defaults) self.(hosts_data) [] ;;
  resolve_all groups hosts.

(** [FlatDataInventory.load] *)
Definition load (self : FlatDataInventory) : result Inventory :=
  defaults <- load_defaults self ;;
  groups <- load_groups self defaults ;;
  hosts <- load_hosts self defaults groups ;;
  Ok (mkInventory hosts groups defaults).

(** The errors [int()] raises: the value cannot be converted. *)
Definition conversion_error (e : exn) : bool :=
  match e with
  | ValueError | TypeError | OverflowError => true
  | _ => false
  end.

(** The connection options [_get_host_netmiko_options] returns for the
    non-empty extras [extra_opts]. *)
Definition netmiko_entry (extra_opts : dict) : list (string * ConnectionOptions) :=
  [("netmiko",
    mkConnectionOptions (Scalar VNone) (Scalar VNone) (Scalar VNone)
      (Scalar VNone) (Scalar VNone) (Mapping extra_opts))].

(** *** Vocabulary of the statements below *)

(** The test of the loop of [_get_data]: the field is no identity field
    ([groups] counts as one under [isDefaults]) and does not hold the marker. *)
Definition data_field (isDefaults : bool) (k : string) : bool :=
  negb (Str.mem k
          (["name"; "hostname"; "port"; "username"; "password"; "platform"]
           ++ (if isDefaults then ["groups"] else []))%list)
  && negb (Str.contains netmiko_prefix k).

(** [v if not _empty(v) else None] *)
Definition none_if_empty (v : value) : value :=
  if _empty v then VNone else v.

(** The value the loop of [_get_host_netmiko_options] stores under the
    stripped key [new_k] for the cell [v]. *)
Definition extra_value (new_k : string) (v : value) : result value :=
  if Str.mem new_k int_keys then z <- py_int v ;; Ok (VInt z)
  else if Str.mem new_k bool_keys then
    Ok (VBool (negb (Str.mem (Str.lower (py_str v)) ["0"; "false"; "none"])))
  else Ok (none_if_empty v).

(** The [ConnectionOptions] built from one option dict. *)
Definition connection_of (c : list (string * pyobj)) : ConnectionOptions :=
  mkConnectionOptions (obj_get c "hostname") (obj_get c "port")
    (obj_get c "username") (obj_get c "password") (obj_get c "platform")
    (obj_get c "extras").

(** The exceptions that leave [load]. *)
Definition load_error (e : exn) : bool :=
  match e with
  | ValueError | TypeError | OverflowError | AttributeError => true
  | KeyError (VStr _) => true
  | KeyError _ => false
  | Exception msg => String.eqb msg "HOST name must not be empty"
  end.

(** [x in (None, NaN)]: the cells an identity coercion unsets. *)
Definition none_or_nan (x : value) : bool :=
  match x with
  | VNone | VFloat S754_nan => true
  | _ => false
  end.

(** The identity fields, by name. *)
Definition identity_fields : list string :=
  ["name"; "hostname"; "port"; "username"; "password"; "platform"].

(** The name cells of a list of rows, in order ([None] for a missing key). *)
Definition names (rows : list row) : list value :=
  map (fun r => get r "name") rows.

(** ** Properties *)

Open Scope list_scope.

(** *** The error monad and the loops *)

Lemma foldM_app {A S : Type} (f : S -> A -> result S) (l1 l2 : list A) (s : S) :
  foldM f (l1 ++ l2) s = (s' <- foldM f l1 s ;; foldM f l2 s').
Proof.
  revert s. induction l1 as [|a l1 IH]; intro s; simpl.
  - reflexivity.
  - destruct (f s a) as [s'|e]; simpl; [apply IH | reflexivity].
Qed.

(** A loop over a list that holds an element whose step always raises does
    not return. *)
Lemma foldM_In_Err {A S : Type} (f : S -> A -> result S) (a : A) (l : list A) :
  (forall s, exists e, f s a = Err e) ->
  In a l -> forall s, exists e, foldM f l s = Err e.
Proof.
  intros Ha. induction l as [|b l IH]; intros Hin s; simpl in *.
  - contradiction.
  - destruct Hin as [->|Hin].
    + destruct (Ha s) as [e ->]. exists e. reflexivity.
    + destruct (f s b) as [s'|e]; simpl.
      * apply IH, Hin.
      * exists e. reflexivity.
Qed.

(** *** Dictionaries with string keys *)

Lemma lookup_setitem_eq (k : string) (v : value) (d : dict) :
  lookup String.eqb k (setitem String.eqb k v d) = Some v.
Proof.
  induction d as [|[k' v'] d IH]; simpl.
  - rewrite String.eqb_refl. reflexivity.
  - destruct (String.eqb k' k) eqn:E; simpl; rewrite E; [reflexivity | exact IH].
Qed.

Lemma lookup_setitem_neq (k k' : string) (v : value) (d : dict) :
  k' <> k ->
  lookup String.eqb k (setitem String.eqb k' v d) = lookup String.eqb k d.
Proof.
  intro Hne. induction d as [|[k0 v0] d IH]; simpl.
  - destruct (String.eqb k' k) eqn:E; [apply String.eqb_eq in E; contradiction | reflexivity].
  - destruct (String.eqb k0 k') eqn:E; simpl.
    + apply String.eqb_eq in E. subst k0.
      destruct (String.eqb k' k) eqn:E'; [apply String.eqb_eq in E'; contradiction | reflexivity].
    + destruct (String.eqb k0 k); [reflexivity | exact IH].
Qed.


(** *** The emptiness predicate *)

(** C9. For every scalar value [v], [_empty v] holds exactly when [v] is
    [None], a float NaN, or the empty string; it does not hold for the number
    zero (integer or float), for [False], nor for any non-empty string, the
    strings made of white space ([str.isspace]) among them. *)
Theorem empty_iff_none_nan_or_empty_string :
  (forall v : value,
      _empty v = true <-> v = VNone \/ v = VFloat S754_nan \/ v = VStr "") /\
  _empty (VInt 0) = false /\
  _empty (VFloat (S754_zero false)) = false /\
  _empty (VBool false) = false /\
  (forall s : string, s <> "" -> _empty (VStr s) = false) /\
  (forall s : string, Str.isspace s = true -> _empty (VStr s) = false).
Proof.
  assert (Hstr : forall s : string, s <> "" -> _empty (VStr s) = false).
  { intros s Hs. unfold _empty, py_eqb. simpl.
    destruct (String.eqb s "") eqn:E; [|reflexivity].
    apply String.eqb_eq in E. contradiction. }
  split; [|repeat split; auto].
  2: { intros s Hs. apply Hstr. intros ->. discriminate Hs. }
  intro v. split.
  - destruct v as [|b|z|f|s]; unfold _empty, py_eqb; simpl; intro H.
    + left. reflexivity.
    + destruct b; discriminate.
    + discriminate.
    + right. left. destruct f; simpl in H; try discriminate. reflexivity.
    + right. right. apply String.eqb_eq in H. subst s. reflexivity.
  - intros [-> | [-> | ->]]; reflexivity.
Qed.

(** *** The identity fields of a built record *)

Lemma coerce_int_22 : coerce_int (VInt 22) = Ok (VInt 22).
Proof. reflexivity. Qed.

(** C7. A host or group row without the [port] key is built with the port
    [22], and it is built whenever its [groups] cell is falsy or a string and
    its connection options convert; the defaults record built from a row
    without the [port] key has no port, and neither has the empty
    [Defaults()]. *)
Theorem absent_port_is_22_except_in_defaults (data : row)
    (Habsent : lookup String.eqb "port" data = None) :
  (forall (t : kind) (defaults : Defaults) (e : element),
      _get_inventory_element t data defaults = Ok e -> e_port e = VInt 22) /\
  (forall (t : kind) (defaults : Defaults) co,
      (truth (get data "groups") = true -> exists s, get data "groups" = VStr s) ->
      _get_host_netmiko_options data = Ok co ->
      exists e, _get_inventory_element t data defaults = Ok e /\ e_port e = VInt 22) /\
  (forall d : Defaults, _get_defaults data = Ok d -> d_port d = VNone) /\
  d_port Defaults_empty = VNone.
Proof.
  split; [|split; [|split]].
  2: { intros t defaults co Hgroups Hco. unfold _get_inventory_element, get_default.
       rewrite Habsent, coerce_int_22, Hco. simpl bind.
       destruct (truth (get data "groups")).
       - destruct (Hgroups eq_refl) as [s ->]. simpl bind.
         eexists. split; reflexivity.
       - simpl bind. eexists. split; reflexivity. }
  - intros t defaults e. unfold _get_inventory_element, get_default.
    rewrite Habsent, coerce_int_22. simpl bind.
    destruct (truth (get data "groups")).
    + destruct (get data "groups"); simpl bind; try discriminate.
      destruct (_get_host_netmiko_options data); simpl bind; [|discriminate].
      intro H. injection H as <-. reflexivity.
    + simpl bind.
      destruct (_get_host_netmiko_options data); simpl bind; [|discriminate].
      intro H. injection H as <-. reflexivity.
  - intro d. unfold _get_defaults, get, get_default. rewrite Habsent.
    simpl bind.
    destruct (_get_host_netmiko_options data); simpl bind; [|discriminate].
    intro H. injection H as <-. reflexivity.
  - reflexivity.
Qed.


(** *** How an exception of a row loop leaves [load] *)

Lemma foldM_first_Err {A S : Type} (f : S -> A -> result S)
    (pre post : list A) (a : A) {s acc : S} {e : exn} :
  foldM f pre s = Ok acc -> f acc a = Err e ->
  foldM f (pre ++ a :: post) s = Err e.
Proof.
  intros Hpre Ha. rewrite foldM_app, Hpre. simpl. rewrite Ha. reflexivity.
Qed.

(** The exception raised by the first group row that raises is the
    exception of [load]. *)
Lemma load_group_row_raises (self : FlatDataInventory) {d : Defaults}
    (pre post : list row) (r : row) {acc : list (value * element)} {e : exn} :
  load_defaults self = Ok d ->
  groups_data self = pre ++ r :: post ->
  foldM (load_row Group d) pre [] = Ok acc ->
  load_row Group d acc r = Err e ->
  load self = Err e.
Proof.
  intros Hd Hg Hpre Hr. unfold load. rewrite Hd. simpl.
  unfold load_groups. rewrite Hg.
  rewrite (foldM_first_Err _ pre post r Hpre Hr).
  destruct pre; reflexivity.
Qed.

(** The same for the first host row that raises, once the groups are built
    and resolved. *)
Lemma load_host_row_raises (self : FlatDataInventory) {d : Defaults}
    {gs : list (value * element)} (pre post : list row) (r : row)
    {acc : list (value * element)} {e : exn} :
  load_defaults self = Ok d ->
  load_groups self d = Ok gs ->
  hosts_data self = pre ++ r :: post ->
  foldM (load_row Host d) pre [] = Ok acc ->
  load_row Host d acc r = Err e ->
  load self = Err e.
Proof.
  intros Hd Hgs Hh Hpre Hr. unfold load. rewrite Hd. simpl. rewrite Hgs. simpl.
  unfold load_hosts. rewrite Hh.
  rewrite (foldM_first_Err _ pre post r Hpre Hr). reflexivity.
Qed.

(** A row on which the loop body raises whatever was built before it keeps
    [load] from returning an inventory, wherever it stands among the group
    rows or the host rows. *)
Lemma load_row_always_raises (self : FlatDataInventory) (r : row) :
  (forall t d acc, exists e, load_row t d acc r = Err e) ->
  In r (groups_data self) \/ In r (hosts_data self) ->
  exists e, load self = Err e.
Proof.
  intros Hr Hin. unfold load.
  destruct (load_defaults self) as [d|e]; simpl; [|eauto].
  destruct Hin as [Hin|Hin].
  - unfold load_groups.
    destruct (foldM_In_Err (load_row Group d) r (groups_data self) (Hr Group d) Hin [])
      as [e He].
    rewrite He. destruct (groups_data self); [contradiction|]. simpl. eauto.
  - destruct (load_groups self d) as [gs|e]; simpl; [|eauto].
    unfold load_hosts.
    destruct (foldM_In_Err (load_row Host d) r (hosts_data self) (Hr Host d) Hin [])
      as [e He].
    rewrite He. simpl. eauto.
Qed.

Lemma load_row_missing_name (t : kind) (d : Defaults)
    (acc : list (value * element)) (r : row) :
  lookup String.eqb "name" r = None ->
  load_row t d acc r = Err (KeyError (VStr "name")).
Proof. intro H. unfold load_row, getitem. rewrite H. reflexivity. Qed.

Lemma load_row_empty_name (t : kind) (d : Defaults)
    (acc : list (value * element)) (r : row) (n : value) :
  lookup String.eqb "name" r = Some n -> _empty n = true ->
  load_row t d acc r = Err name_error.
Proof. intros H E. unfold load_row, getitem. rewrite H. simpl. rewrite E. reflexivity. Qed.

(** *** Rows without a name *)

(** C10. A group row or host row without the [name] key makes the loop body
    raise [KeyError('name')] whatever else the row holds and whatever was
    built before; [load] then returns no inventory, and its exception is that
    [KeyError] when the row is the first one to raise. *)
Theorem missing_name_key_raises_KeyError (self : FlatDataInventory) (r : row)
    (Hname : lookup String.eqb "name" r = None) :
  (forall t d acc, load_row t d acc r = Err (KeyError (VStr "name"))) /\
  (In r (groups_data self) \/ In r (hosts_data self) ->
   exists e, load self = Err e) /\
  (forall d pre post acc,
      load_defaults self = Ok d ->
      groups_data self = pre ++ r :: post ->
      foldM (load_row Group d) pre [] = Ok acc ->
      load self = Err (KeyError (VStr "name"))) /\
  (forall d gs pre post acc,
      load_defaults self = Ok d ->
      load_groups self d = Ok gs ->
      hosts_data self = pre ++ r :: post ->
      foldM (load_row Host d) pre [] = Ok acc ->
      load self = Err (KeyError (VStr "name"))).
Proof.
  repeat split.
  - intros t d acc. apply load_row_missing_name, Hname.
  - apply load_row_always_raises. intros t d acc.
    exists (KeyError (VStr "name")). apply load_row_missing_name, Hname.
  - intros d pre post acc Hd Hg Hpre.
    apply (load_group_row_raises self pre post r Hd Hg Hpre).
    apply load_row_missing_name, Hname.
  - intros d gs pre post acc Hd Hgs Hh Hpre.
    apply (load_host_row_raises self pre post r Hd Hgs Hh Hpre).
    apply load_row_missing_name, Hname.
Qed.

(** A group row or host row whose [name] cell is empty makes
    the loop body raise [Exception('HOST name must not be empty')], the same
    text for group rows and host rows; [load] then returns no inventory, and
    its exception is that one when the row is the first one to raise. *)
Theorem empty_name_raises_HOST_name_error (self : FlatDataInventory) (r : row)
    (n : value) (Hname : lookup String.eqb "name" r = Some n)
    (Hempty : _empty n = true) :
  (forall t d acc,
      load_row t d acc r = Err (Exception "HOST name must not be empty")) /\
  (In r (groups_data self) \/ In r (hosts_data self) ->
   exists e, load self = Err e) /\
  (forall d pre post acc,
      load_defaults self = Ok d ->
      groups_data self = pre ++ r :: post ->
      foldM (load_row Group d) pre [] = Ok acc ->
      load self = Err (Exception "HOST name must not be empty")) /\
  (forall d gs pre post acc,
      load_defaults self = Ok d ->
      load_groups self d = Ok gs ->
      hosts_data self = pre ++ r :: post ->
      foldM (load_row Host d) pre [] = Ok acc ->
      load self = Err (Exception "HOST name must not be empty")).
Proof.
  pose proof (fun t d acc => load_row_empty_name t d acc r n Hname Hempty) as Hrow.
  repeat split.
  - exact Hrow.
  - apply load_row_always_raises. intros t d acc.
    exists name_error. apply Hrow.
  - intros d pre post acc Hd Hg Hpre.
    exact (load_group_row_raises self pre post r Hd Hg Hpre (Hrow Group d acc)).
  - intros d gs pre post acc Hd Hgs Hh Hpre.
    exact (load_host_row_raises self pre post r Hd Hgs Hh Hpre (Hrow Host d acc)).
Qed.


(** *** Resolution of group references *)

Lemma set_groups_same (e : element) : set_groups e (e_groups e) = e.
Proof. destruct e. reflexivity. Qed.

(** Resolving a list of names either finds them all, or raises [KeyError]
    on a name of the list that is no key of the groups mapping. *)
Lemma resolve_cases (gs : list (value * element)) (names : list string) :
  (resolve gs names = Ok names /\
   forall g, In g names -> lookup py_eqb (VStr g) gs <> None) \/
  (exists g, In g names /\ lookup py_eqb (VStr g) gs = None /\
             resolve gs names = Err (KeyError (VStr g))).
Proof.
  induction names as [|g names IH].
  - left. split; [reflexivity | intros g []].
  - unfold resolve in *. simpl.
    destruct (lookup py_eqb (VStr g) gs) as [x|] eqn:Hg.
    + simpl. destruct IH as [[-> Hall] | (g' & Hin & Hnone & ->)].
      * left. split; [reflexivity|].
        intros g0 [<-|H0]; [rewrite Hg; discriminate | apply Hall, H0].
      * right. exists g'.
        split; [right; exact Hin | split; [exact Hnone | reflexivity]].
    + right. exists g.
      split; [left; reflexivity | split; [exact Hg | reflexivity]].
Qed.

Lemma resolve_all_cases (gs d : list (value * element)) :
  (resolve_all gs d = Ok d /\
   forall k e g, In (k, e) d -> In g (e_groups e) ->
                 lookup py_eqb (VStr g) gs <> None) \/
  (exists g, (exists k e, In (k, e) d /\ In g (e_groups e)) /\
             lookup py_eqb (VStr g) gs = None /\
             resolve_all gs d = Err (KeyError (VStr g))).
Proof.
  induction d as [|[k e] d IH].
  - left. split; [reflexivity | intros k e g []].
  - unfold resolve_all in *. simpl.
    destruct (resolve_cases gs (e_groups e)) as [[-> Hall] | (g & Hin & Hnone & ->)].
    + simpl. rewrite set_groups_same.
      destruct IH as [[-> Hd] | (g & (k' & e' & Hin & Hg) & Hnone & ->)].
      * left. split; [reflexivity|].
        intros k0 e0 g0 [H0|H0] Hg0.
        -- injection H0 as <- <-. apply Hall, Hg0.
        -- apply (Hd k0 e0 g0 H0 Hg0).
      * right. exists g. split; [|split; [exact Hnone | reflexivity]].
        exists k', e'. split; [right; exact Hin | exact Hg].
    + right. exists g. split; [|split; [exact Hnone | reflexivity]].
      exists k, e. split; [left; reflexivity | exact Hin].
Qed.

(** A reference to an absent group makes the resolution loop raise
    [KeyError] on an absent name. *)
Lemma resolve_all_missing (gs d : list (value * element)) (k : value)
    (e : element) (g : string) :
  In (k, e) d -> In g (e_groups e) -> lookup py_eqb (VStr g) gs = None ->
  exists g', lookup py_eqb (VStr g') gs = None /\
             resolve_all gs d = Err (KeyError (VStr g')).
Proof.
  intros Hin Hg Hnone.
  destruct (resolve_all_cases gs d) as [[_ Hall] | (g' & _ & Hnone' & Hres)].
  - exfalso. exact (Hall k e g Hin Hg Hnone).
  - exists g'. split; assumption.
Qed.

(** C6. The groups are resolved against the mapping built from all the
    group rows, and the hosts against the resolved groups mapping. A group
    or a host of the mapping whose group list names a group that is no key
    of the groups mapping makes [load] raise [KeyError] on an absent name,
    so no inventory is returned; and in an inventory that [load] returns,
    every name of every group list is a key of the groups mapping. *)
Theorem unresolved_group_raises_KeyError (self : FlatDataInventory) (d : Defaults)
    (Hd : load_defaults self = Ok d) :
  (forall gs k e g,
      foldM (load_row Group d) (groups_data self) [] = Ok gs ->
      In (k, e) gs -> In g (e_groups e) ->
      lookup py_eqb (VStr g) gs = None ->
      exists g', lookup py_eqb (VStr g') gs = None /\
                 load self = Err (KeyError (VStr g'))) /\
  (forall gs hs k e g,
      load_groups self d = Ok gs ->
      foldM (load_row Host d) (hosts_data self) [] = Ok hs ->
      In (k, e) hs -> In g (e_groups e) ->
      lookup py_eqb (VStr g) gs = None ->
      exists g', lookup py_eqb (VStr g') gs = None /\
                 load self = Err (KeyError (VStr g'))) /\
  (forall inv k e g,
      load self = Ok inv ->
      In (k, e) (inv_groups inv) \/ In (k, e) (inv_hosts inv) ->
      In g (e_groups e) ->
      lookup py_eqb (VStr g) (inv_groups inv) <> None).
Proof.
  split; [|split].
  - intros gs k e g Hfold Hin Hg Hnone.
    destruct (resolve_all_missing gs gs k e g Hin Hg Hnone) as (g' & Hnone' & Hres).
    exists g'. split; [exact Hnone'|].
    unfold load. rewrite Hd. simpl. unfold load_groups.
    destruct (groups_data self) as [|r rows] eqn:Hrows.
    + simpl in Hfold. injection Hfold as <-. contradiction.
    + rewrite Hfold. simpl. rewrite Hres. reflexivity.
  - intros gs hs k e g Hgs Hfold Hin Hg Hnone.
    destruct (resolve_all_missing gs hs k e g Hin Hg Hnone) as (g' & Hnone' & Hres).
    exists g'. split; [exact Hnone'|].
    unfold load. rewrite Hd. simpl. rewrite Hgs. simpl.
    unfold load_hosts. rewrite Hfold. simpl. rewrite Hres. reflexivity.
  - intros inv k e g. unfold load. rewrite Hd. simpl.
    destruct (load_groups self d) as [gs|x] eqn:Hgs; simpl; [|discriminate].
    unfold load_hosts.
    destruct (foldM (load_row Host d) (hosts_data self) []) as [hs|x]; simpl;
      [|discriminate].
    destruct (resolve_all_cases gs hs) as [[Hres Hhosts] | (g' & _ & _ & Hres)];
      rewrite Hres; simpl; [|discriminate].
    intro H. injection H as <-. simpl.
    intros [Hin|Hin] Hg; [|exact (Hhosts k e g Hin Hg)].
    unfold load_groups in Hgs.
    destruct (groups_data self) as [|r rows].
    + injection Hgs as <-. contradiction.
    + destruct (foldM (load_row Group d) (r :: rows) []) as [g0|x]; simpl in Hgs;
        [|discriminate].
      destruct (resolve_all_cases g0 g0) as [[Hres0 Hgroups] | (g' & _ & _ & Hres0)];
        rewrite Hres0 in Hgs; [|discriminate].
      injection Hgs as <-. exact (Hgroups k e g Hin Hg).
Qed.


(** *** Connection options *)

Lemma py_int_conversion_error (v : value) (e : exn) :
  py_int v = Err e -> conversion_error e = true.
Proof.
  destruct v as [|b|z|f|s]; simpl; try discriminate.
  - intro H. injection H as <-. reflexivity.
  - destruct f; simpl; try discriminate; intro H; injection H as <-; reflexivity.
  - destruct (Str.to_int s); [discriminate|].
    intro H. injection H as <-. reflexivity.
Qed.

(** What one turn of the loop of [_get_host_netmiko_options] does to the
    extras: nothing for a field without the marker, one assignment under the
    stripped key otherwise. *)
Lemma netmiko_step_Ok (acc acc' : dict) (k : string) (v : value) :
  netmiko_step acc (k, v) = Ok acc' ->
  (Str.contains netmiko_prefix k = false /\ acc' = acc) \/
  (Str.contains netmiko_prefix k = true /\
   exists x, acc' = setitem String.eqb (Str.replace netmiko_prefix "" k) x acc).
Proof.
  unfold netmiko_step.
  destruct (Str.contains netmiko_prefix k).
  - intro H. right. split; [reflexivity|].
    destruct (Str.mem (Str.replace netmiko_prefix "" k) int_keys).
    + destruct (py_int v) as [z|e]; simpl in H; [|discriminate].
      injection H as <-. eauto.
    + destruct (Str.mem (Str.replace netmiko_prefix "" k) bool_keys).
      * destruct (Str.mem (Str.lower (py_str v)) ["0"; "false"; "none"]);
          injection H as <-; eauto.
      * destruct (_empty v); injection H as <-; eauto.
  - intro H. injection H as <-. left. split; reflexivity.
Qed.

Lemma netmiko_step_Err (acc : dict) (kv : string * value) (e : exn) :
  netmiko_step acc kv = Err e -> conversion_error e = true.
Proof.
  destruct kv as [k v]. unfold netmiko_step.
  destruct (Str.contains netmiko_prefix k); [|discriminate].
  destruct (Str.mem (Str.replace netmiko_prefix "" k) int_keys).
  - destruct (py_int v) as [z|e'] eqn:E; simpl; [discriminate|].
    intro H. injection H as <-. exact (py_int_conversion_error _ _ E).
  - destruct (Str.mem (Str.replace netmiko_prefix "" k) bool_keys).
    + destruct (Str.mem (Str.lower (py_str v)) ["0"; "false"; "none"]); discriminate.
    + destruct (_empty v); discriminate.
Qed.

Lemma netmiko_fold_Err (data : row) (acc : dict) (e : exn) :
  foldM netmiko_step data acc = Err e -> conversion_error e = true.
Proof.
  revert acc. induction data as [|kv data IH]; intro acc; simpl; [discriminate|].
  destruct (netmiko_step acc kv) as [acc'|e'] eqn:E; simpl.
  - apply IH.
  - intro H. injection H as <-. exact (netmiko_step_Err _ _ _ E).
Qed.

(** The only exceptions of [_get_host_netmiko_options] are those of [int()]. *)
Lemma netmiko_options_Err (data : row) (e : exn) :
  _get_host_netmiko_options data = Err e -> conversion_error e = true.
Proof.
  unfold _get_host_netmiko_options.
  destruct (foldM netmiko_step data []) as [opts|e'] eqn:E; simpl.
  - destruct opts; discriminate.
  - intro H. injection H as <-. exact (netmiko_fold_Err _ _ _ E).
Qed.

(** An integer-typed field whose value [int()] rejects raises that exception
    in its turn of the loop. *)
Lemma netmiko_step_int_Err (acc : dict) (k : string) (v : value) (e : exn) :
  Str.contains netmiko_prefix k = true ->
  Str.mem (Str.replace netmiko_prefix "" k) int_keys = true ->
  py_int v = Err e ->
  netmiko_step acc (k, v) = Err e.
Proof.
  intros Hk Hint Hv. unfold netmiko_step. rewrite Hk, Hint, Hv. reflexivity.
Qed.

Lemma netmiko_step_int_Ok (acc : dict) (k : string) (v : value) (z : Z) :
  Str.contains netmiko_prefix k = true ->
  Str.mem (Str.replace netmiko_prefix "" k) int_keys = true ->
  py_int v = Ok z ->
  netmiko_step acc (k, v)
  = Ok (setitem String.eqb (Str.replace netmiko_prefix "" k) (VInt z) acc).
Proof.
  intros Hk Hint Hv. unfold netmiko_step. rewrite Hk, Hint, Hv. reflexivity.
Qed.

(** The later turns of the loop keep the entry of a key that no later field
    is stripped to. *)
Lemma netmiko_fold_keeps (key : string) (post : row) (acc acc' : dict) :
  (forall k' v', In (k', v') post -> Str.contains netmiko_prefix k' = true ->
                 Str.replace netmiko_prefix "" k' <> key) ->
  foldM netmiko_step post acc = Ok acc' ->
  lookup String.eqb key acc' = lookup String.eqb key acc.
Proof.
  revert acc. induction post as [|[k v] post IH]; intros acc Hlater; cbn [foldM].
  - intro H. injection H as <-. reflexivity.
  - destruct (netmiko_step acc (k, v)) as [acc1|e] eqn:E; cbn [bind]; [|discriminate].
    intro H.
    assert (Hpost : lookup String.eqb key acc' = lookup String.eqb key acc1).
    { apply IH; [|exact H]. intros k' v' Hin. apply (Hlater k' v'). right. exact Hin. }
    rewrite Hpost.
    destruct (netmiko_step_Ok _ _ _ _ E) as [[_ ->] | [Hk [x ->]]]; [reflexivity|].
    apply lookup_setitem_neq. apply (Hlater k v); [left; reflexivity | exact Hk].
Qed.

(** A field with a failing integer conversion keeps the row from being built
    into a host, a group or the defaults. *)
Lemma int_field_blocks_element (data : row) (t : kind) (d : Defaults) :
  (exists e, _get_host_netmiko_options data = Err e) ->
  exists e, _get_inventory_element t data d = Err e.
Proof.
  intros [e He]. unfold _get_inventory_element.
  destruct (coerce_int (get_default data "port" (VInt 22))) as [p|x]; simpl; [|eauto].
  destruct (truth (get data "groups")).
  - destruct (get data "groups"); simpl; eauto; rewrite He; simpl; eauto.
  - simpl. rewrite He. simpl. eauto.
Qed.

Lemma int_field_blocks_defaults (data : row) :
  (exists e, _get_host_netmiko_options data = Err e) ->
  exists e, _get_defaults data = Err e.
Proof.
  intros [e He]. unfold _get_defaults.
  destruct (coerce_int (get data "port")) as [p|x]; simpl; [|eauto].
  rewrite He. simpl. eauto.
Qed.

Lemma load_row_blocked (data : row) :
  (exists e, _get_host_netmiko_options data = Err e) ->
  forall t d acc, exists e, load_row t d acc data = Err e.
Proof.
  intros H t d acc. unfold load_row.
  destruct (getitem data "name") as [n|x]; simpl; [|eauto].
  destruct (_empty n); simpl; [eauto|].
  destruct (int_field_blocks_element data t d H) as [e ->]. simpl. eauto.
Qed.

(** The integer suffixes hold no marker: a field named by the prefix and one
    of them carries the marker and is stripped to the suffix. *)
Lemma int_key_field (suffix : string) :
  In suffix int_keys ->
  Str.startswith netmiko_prefix (netmiko_prefix ++ suffix)%string = true /\
  Str.contains netmiko_prefix (netmiko_prefix ++ suffix)%string = true /\
  Str.replace netmiko_prefix "" (netmiko_prefix ++ suffix)%string = suffix /\
  Str.mem suffix int_keys = true.
Proof.
  unfold int_keys. simpl.
  intros [<-|[<-|[<-|[<-|[<-|[<-|[]]]]]]]; repeat split; reflexivity.
Qed.


Lemma netmiko_entry_eq (extra_opts : dict) :
  _get_connection_options [("netmiko", [("extras", Mapping extra_opts)])]
  = netmiko_entry extra_opts.
Proof. reflexivity. Qed.

(** Take a row with a field named [netmiko_] followed by one of the
    integer suffixes. When [int()] rejects its value, the connection-option
    builder raises one of the exceptions of [int()] (that of this field when
    the fields before it pass, [ValueError] for a string that is no numeral),
    no host, group or defaults record is built from the row, and [load]
    returns no inventory when the row is its defaults row, one of its group
    rows or one of its host rows. When the value is a numeral such as ["30"]
    and the builder returns, the extras hold that integer under the suffix,
    provided no later field of the row is stripped to the same key. *)
Theorem int_suffix_value_is_converted (data : row) (suffix : string) (v : value)
    (Hsuffix : In suffix int_keys)
    (Hin : In ((netmiko_prefix ++ suffix)%string, v) data) :
  (forall e0, py_int v = Err e0 ->
      (exists e, _get_host_netmiko_options data = Err e /\
                 conversion_error e = true) /\
      (forall pre post acc,
          data = pre ++ ((netmiko_prefix ++ suffix)%string, v) :: post ->
          foldM netmiko_step pre [] = Ok acc ->
          _get_host_netmiko_options data = Err e0) /\
      (forall t d, exists e, _get_inventory_element t data d = Err e) /\
      (exists e, _get_defaults data = Err e) /\
      (forall self,
          defaults_data self = data \/
          In data (groups_data self) \/ In data (hosts_data self) ->
          exists e, load self = Err e)) /\
  (forall s, v = VStr s -> Str.to_int s = None -> py_int v = Err ValueError) /\
  (forall s n pre post co,
      v = VStr s -> Str.to_int s = Some n ->
      data = pre ++ ((netmiko_prefix ++ suffix)%string, v) :: post ->
      (forall k' v', In (k', v') post ->
                     Str.contains netmiko_prefix k' = true ->
                     Str.replace netmiko_prefix "" k' <> suffix) ->
      _get_host_netmiko_options data = Ok co ->
      exists extra_opts,
        co = netmiko_entry extra_opts /\
        lookup String.eqb suffix extra_opts = Some (VInt n)).
Proof.
  destruct (int_key_field suffix Hsuffix) as (_ & Hk & Hrep & Hmem).
  assert (Hint : Str.mem (Str.replace netmiko_prefix ""
                            (netmiko_prefix ++ suffix)%string) int_keys = true)
    by (rewrite Hrep; exact Hmem).
  split; [|split].
  - intros e0 He0.
    pose proof (fun acc => netmiko_step_int_Err acc _ _ _ Hk Hint He0) as Hstep.
    assert (Hopt : exists e, _get_host_netmiko_options data = Err e).
    { destruct (foldM_In_Err netmiko_step _ data
                  (fun acc => ex_intro _ e0 (Hstep acc)) Hin []) as [e He].
      exists e. unfold _get_host_netmiko_options. rewrite He. reflexivity. }
    split; [|split; [|split; [|split]]].
    + destruct Hopt as [e He]. exists e.
      split; [exact He | exact (netmiko_options_Err _ _ He)].
    + intros pre post acc -> Hpre. unfold _get_host_netmiko_options.
      rewrite (foldM_first_Err _ pre post _ Hpre (Hstep acc)). reflexivity.
    + intros t d. exact (int_field_blocks_element data t d Hopt).
    + exact (int_field_blocks_defaults data Hopt).
    + intros self [Hdef | Hrows].
      * destruct (int_field_blocks_defaults data Hopt) as [e He].
        exists e. unfold load, load_defaults. rewrite Hdef.
        destruct data as [|kv data']; [contradiction|].
        rewrite He. reflexivity.
      * exact (load_row_always_raises self data (load_row_blocked data Hopt) Hrows).
  - intros s -> Hs. simpl. rewrite Hs. reflexivity.
  - intros s n pre post co -> Hs -> Hlater Hco.
    assert (Hv : py_int (VStr s) = Ok n) by (simpl; rewrite Hs; reflexivity).
    unfold _get_host_netmiko_options in Hco. rewrite foldM_app in Hco.
    destruct (foldM netmiko_step pre []) as [acc|e]; cbn [bind foldM] in Hco;
      [|discriminate].
    rewrite (netmiko_step_int_Ok acc _ _ _ Hk Hint Hv), Hrep in Hco.
    cbn [bind] in Hco.
    destruct (foldM netmiko_step post (setitem String.eqb suffix (VInt n) acc))
      as [acc'|e] eqn:Hpost; cbn [bind] in Hco; [|discriminate].
    pose proof (netmiko_fold_keeps suffix post _ _ Hlater Hpost) as Hkeep.
    rewrite lookup_setitem_eq in Hkeep.
    destruct acc' as [|kv acc']; [discriminate|].
    rewrite netmiko_entry_eq in Hco. injection Hco as <-.
    exists (kv :: acc'). split; [reflexivity | exact Hkeep].
Qed.


(** *** Where the code departs from its own coercions *)

(** The identity fields of the defaults record are the row's own cells,
    whatever the coerced locals were. *)
Lemma defaults_fields_are_raw_cells (data : row) (d : Defaults) :
  _get_defaults data = Ok d ->
  d_hostname d = get data "hostname" /\ d_port d = get data "port" /\
  d_username d = get data "username" /\ d_password d = get data "password" /\
  d_platform d = get data "platform" /\ d_data d = _get_data data false.
Proof.
  unfold _get_defaults.
  destruct (coerce_int (get data "port")); simpl; [|discriminate].
  destruct (_get_host_netmiko_options data); simpl; [|discriminate].
  intro H. injection H as <-. simpl. repeat split.
Qed.

(** A falsy cell skips the coercion of an identity field altogether. *)
Lemma coerce_falsy (x : value) :
  truth x = false -> coerce_str x = x /\ coerce_int x = Ok x.
Proof. intro H. unfold coerce_str, coerce_int. rewrite H. split; reflexivity. Qed.

(** A NaN cell is truthy and empty: the coercion unsets it. *)
Lemma coerce_nan :
  coerce_str (VFloat S754_nan) = VNone /\ coerce_int (VFloat S754_nan) = Ok VNone.
Proof. split; reflexivity. Qed.

(** C1 (code defect). [_get_defaults] converts its locals and then builds the
    record from [data.get(...)]: a defaults row whose port cell is ["22"]
    gives a record whose port is the string ["22"], not the integer [22], and
    an empty hostname cell stays the empty string; the host and group build
    stores the converted port. *)
Theorem defaults_port_stays_a_string :
  _get_defaults [("port", VStr "22")]
  = Ok (mkDefaults VNone (VStr "22") VNone VNone VNone [] []) /\
  coerce_int (VStr "22") = Ok (VInt 22) /\
  _get_defaults [("hostname", VStr "")]
  = Ok (mkDefaults (VStr "") VNone VNone VNone VNone [] []) /\
  _get_inventory_element Host [("name", VStr "r1"); ("port", VStr "22")] Defaults_empty
  = Ok (mkElement Host (VStr "r1") VNone (VInt 22) VNone VNone VNone [] []
          Defaults_empty []).
Proof. repeat split; reflexivity. Qed.

(** C2 (code defect). In a host or group row an identity cell holding the
    empty string is empty by [_empty], and is stored as the empty string, not
    unset: the test [if port:] skips the branch that would unset it. The same
    test skips the conversion of a falsy cell that is not empty, such as the
    hostname [0]. *)
Theorem empty_string_cell_is_not_unset :
  _empty (VStr "") = true /\
  _get_inventory_element Group [("name", VStr "core"); ("port", VStr "")] Defaults_empty
  = Ok (mkElement Group (VStr "core") VNone (VStr "") VNone VNone VNone [] []
          Defaults_empty []) /\
  _get_inventory_element Host
    [("name", VStr "r1"); ("hostname", VStr ""); ("username", VStr "");
     ("password", VStr "")] Defaults_empty
  = Ok (mkElement Host (VStr "r1") (VStr "") (VInt 22) (VStr "") (VStr "") VNone
          [] [] Defaults_empty []) /\
  _empty (VInt 0) = false /\
  _get_inventory_element Host [("name", VStr "r1"); ("hostname", VInt 0)] Defaults_empty
  = Ok (mkElement Host (VStr "r1") (VInt 0) (VInt 22) VNone VNone VNone
          [] [] Defaults_empty []).
Proof. repeat split; reflexivity. Qed.

(** C3 (code defect). [_get_data] drops the [groups] field when its flag
    [isDefaults] is set, and [_get_defaults] calls it without the flag: the
    data mapping of the defaults record keeps the [groups] field. *)
Theorem defaults_data_keeps_groups :
  _get_data [("groups", VStr "core"); ("site", VStr "")] true = [("site", VNone)] /\
  _get_defaults [("groups", VStr "core"); ("site", VStr "")]
  = Ok (mkDefaults VNone VNone VNone VNone VNone
          [("groups", VStr "core"); ("site", VNone)] []).
Proof. split; reflexivity. Qed.

(** C4 (code defect). The marker [netmiko_] is looked for anywhere in a field
    name ([in]) and every occurrence is removed ([replace]): a field that
    does not begin with it is still placed in the extras and kept out of the
    data mapping, and a suffix that holds the marker again loses it. *)
Theorem marker_is_matched_anywhere :
  Str.startswith netmiko_prefix "legacy_netmiko_timeout" = false /\
  _get_host_netmiko_options [("legacy_netmiko_timeout", VStr "30")]
  = Ok (netmiko_entry [("legacy_timeout", VStr "30")]) /\
  _get_data [("legacy_netmiko_timeout", VStr "30")] false = [] /\
  _get_host_netmiko_options [("netmiko_use_netmiko_keys", VStr "1")]
  = Ok (netmiko_entry [("use_keys", VStr "1")]).
Proof. repeat split; reflexivity. Qed.

(** C5 (code defect). The loop over the group rows ends with the log line and
    the [raise] of the loop over the host rows, word for word: a group row
    with an empty name raises [Exception('HOST name must not be empty')],
    the exception of a host row with an empty name, and not an exception
    that names the group. *)
Theorem group_row_raises_the_host_message :
  load (mkFlatDataInventory [] [[("name", VStr "")]] [])
  = Err (Exception "HOST name must not be empty") /\
  load (mkFlatDataInventory [[("name", VStr ""); ("hostname", VStr "10.0.0.1")]] [] [])
  = Err (Exception "HOST name must not be empty") /\
  load (mkFlatDataInventory [] [[("name", VStr "")]] [])
  <> Err (Exception "group name must not be empty").
Proof. repeat split; try reflexivity. vm_compute. discriminate. Qed.

(** C8 (code defect). Every occurrence of the marker is removed from a field
    name, so two fields that begin with [netmiko_] can be stripped to one
    key: with [netmiko_timeout = "30"] followed by
    [netmiko_netmiko_timeout = "7"] the extras hold 7 under [timeout], not
    30, and nothing under [netmiko_timeout]. Alone, the first field gives 30;
    a value that is no numeral raises [ValueError]. *)
Theorem later_field_overwrites_the_timeout :
  Str.startswith netmiko_prefix "netmiko_timeout" = true /\
  Str.startswith netmiko_prefix "netmiko_netmiko_timeout" = true /\
  _get_host_netmiko_options
    [("netmiko_timeout", VStr "30"); ("netmiko_netmiko_timeout", VStr "7")]
  = Ok (netmiko_entry [("timeout", VInt 7)]) /\
  _get_host_netmiko_options [("netmiko_timeout", VStr "30")]
  = Ok (netmiko_entry [("timeout", VInt 30)]) /\
  _get_host_netmiko_options [("netmiko_timeout", VStr "abc")] = Err ValueError.
Proof. repeat split; reflexivity. Qed.


(** ** Further properties of the module *)

(** *** Loops that fill a dict from a dict *)

Lemma setitem_fresh {V : Type} (k : string) (v : V) (d : list (string * V)) :
  ~ In k (map fst d) -> setitem String.eqb k v d = d ++ [(k, v)].
Proof.
  induction d as [|[k' v'] d IH]; simpl; intro Hk.
  - reflexivity.
  - destruct (String.eqb k' k) eqn:E.
    + apply String.eqb_eq in E. exfalso. apply Hk. left. exact E.
    + rewrite IH; [reflexivity|]. intro H. apply Hk. right. exact H.
Qed.

(** A loop that assigns [g kv] under the key of every entry that passes [p]
    copies the passing entries in order when the keys are distinct. *)
Lemma fold_setitem_nodup {A V : Type} (p : string * A -> bool) (g : string * A -> V)
    (step : list (string * V) -> string * A -> list (string * V))
    (Hstep : forall acc kv,
        step acc kv = if p kv then setitem String.eqb (fst kv) (g kv) acc else acc)
    (data : list (string * A)) (acc : list (string * V)) :
  NoDup (map fst data) ->
  (forall k, In k (map fst data) -> ~ In k (map fst acc)) ->
  fold_left step data acc
  = acc ++ map (fun kv => (fst kv, g kv)) (filter p data).
Proof.
  revert acc. induction data as [|kv data IH]; intros acc Hnd Hfresh; simpl.
  - rewrite app_nil_r. reflexivity.
  - simpl in Hnd. inversion Hnd as [|k l Hk Hnd']; subst.
    rewrite Hstep. destruct (p kv) eqn:Hp.
    + rewrite setitem_fresh; [|apply Hfresh; left; reflexivity].
      rewrite IH; [simpl; rewrite <- app_assoc; reflexivity | exact Hnd' |].
      intros k Hin. rewrite map_app. simpl. intro H.
      apply in_app_or in H. destruct H as [H|[H|[]]].
      * apply (Hfresh k); [right; exact Hin | exact H].
      * subst k. contradiction.
    + apply IH; [exact Hnd'|].
      intros k Hin. apply Hfresh. right. exact Hin.
Qed.

Lemma lookup_filter_map {A V : Type} (p : string -> bool) (g : A -> V)
    (k : string) (data : list (string * A)) :
  lookup String.eqb k
    (map (fun kv => (fst kv, g (snd kv))) (filter (fun kv => p (fst kv)) data))
  = if p k then option_map g (lookup String.eqb k data) else None.
Proof.
  induction data as [|[k0 v0] data IH]; simpl.
  - destruct (p k); reflexivity.
  - destruct (p k0) eqn:Hp; simpl.
    + destruct (String.eqb k0 k) eqn:E.
      * apply String.eqb_eq in E. subst k0. rewrite Hp. reflexivity.
      * exact IH.
    + destruct (String.eqb k0 k) eqn:E.
      * apply String.eqb_eq in E. subst k0. rewrite Hp in *. exact IH.
      * exact IH.
Qed.

Lemma filter_all {A : Type} (l : list A) : filter (fun _ => true) l = l.
Proof. induction l as [|a l IH]; simpl; [reflexivity | rewrite IH; reflexivity]. Qed.

(** *** The data mapping *)

Lemma get_data_filter_map (data : row) (isDefaults : bool) :
  NoDup (map fst data) ->
  _get_data data isDefaults
  = map (fun kv => (fst kv, none_if_empty (snd kv)))
        (filter (fun kv => data_field isDefaults (fst kv)) data).
Proof.
  intro Hkeys. unfold _get_data.
  rewrite (fold_setitem_nodup
             (fun kv => data_field isDefaults (fst kv))
             (fun kv => none_if_empty (snd kv))); [reflexivity | | exact Hkeys |].
  - intros acc [k v]. unfold data_field, none_if_empty. simpl fst. simpl snd.
    destruct isDefaults; destruct (_empty v); reflexivity.
  - intros k _ [].
Qed.

(** X1. For a row (a dict: its keys are distinct), the data mapping holds the
    fields that are no identity field and do not hold the marker, in the
    order of the row, each with its cell or with [None] when the cell is
    empty: a key of the mapping is never dropped for an empty cell, and a
    lookup tells an excluded or absent key from a key kept with [None]. *)
Theorem data_mapping_is_the_filtered_row (data : row) (isDefaults : bool)
    (Hkeys : NoDup (map fst data)) :
  _get_data data isDefaults
  = map (fun kv => (fst kv, none_if_empty (snd kv)))
        (filter (fun kv => data_field isDefaults (fst kv)) data) /\
  (forall k,
      lookup String.eqb k (_get_data data isDefaults)
      = if data_field isDefaults k
        then option_map none_if_empty (lookup String.eqb k data)
        else None).
Proof.
  pose proof (get_data_filter_map data isDefaults Hkeys) as Heq.
  split; [exact Heq|].
  intro k. rewrite Heq.
  apply (lookup_filter_map (data_field isDefaults) none_if_empty).
Qed.

(** *** The connection options of a dict of option dicts *)

(** X2. For option dicts under distinct connection names,
    [_get_connection_options] gives one [ConnectionOptions] per name, in the
    same order, built from that name's option dict alone. *)
Theorem connection_options_follow_the_option_dicts
    (data : list (string * list (string * pyobj)))
    (Hkeys : NoDup (map fst data)) :
  _get_connection_options data
  = map (fun kv => (fst kv, connection_of (snd kv))) data /\
  map fst (_get_connection_options data) = map fst data.
Proof.
  assert (Heq : _get_connection_options data
                = map (fun kv => (fst kv, connection_of (snd kv))) data).
  { unfold _get_connection_options.
    rewrite (fold_setitem_nodup (fun _ => true)
               (fun kv => connection_of (snd kv))).
    - rewrite filter_all. reflexivity.
    - intros acc [cn c]. reflexivity.
    - exact Hkeys.
    - intros k _ []. }
  split; [exact Heq|].
  rewrite Heq, map_map. reflexivity.
Qed.


(** *** The extras of the connection options *)

Lemma netmiko_step_extra_value (acc : dict) (k : string) (v : value) :
  netmiko_step acc (k, v)
  = if Str.contains netmiko_prefix k
    then x <- extra_value (Str.replace netmiko_prefix "" k) v ;;
         Ok (setitem String.eqb (Str.replace netmiko_prefix "" k) x acc)
    else Ok acc.
Proof.
  unfold netmiko_step, extra_value, none_if_empty.
  destruct (Str.contains netmiko_prefix k); [|reflexivity].
  destruct (Str.mem (Str.replace netmiko_prefix "" k) int_keys).
  - destruct (py_int v); reflexivity.
  - destruct (Str.mem (Str.replace netmiko_prefix "" k) bool_keys).
    + destruct (Str.mem (Str.lower (py_str v)) ["0"; "false"; "none"]); reflexivity.
    + destruct (_empty v); reflexivity.
Qed.

Lemma setitem_not_nil {K V : Type} (eqb : K -> K -> bool) (k : K) (v : V)
    (d : list (K * V)) :
  setitem eqb k v d <> [].
Proof.
  destruct d as [|[k' v'] d]; simpl; [discriminate|].
  destruct (eqb k' k); discriminate.
Qed.

Lemma netmiko_fold_no_marker (data : row) (acc : dict) :
  (forall k v, In (k, v) data -> Str.contains netmiko_prefix k = false) ->
  foldM netmiko_step data acc = Ok acc.
Proof.
  induction data as [|[k v] data IH]; intro H; cbn [foldM]; [reflexivity|].
  rewrite netmiko_step_extra_value, (H k v (or_introl eq_refl)). cbn [bind].
  apply IH. intros k' v' Hin. apply (H k' v'). right. exact Hin.
Qed.

Lemma netmiko_fold_grows (data : row) (acc acc' : dict) :
  foldM netmiko_step data acc = Ok acc' -> acc <> [] -> acc' <> [].
Proof.
  revert acc. induction data as [|[k v] data IH]; intro acc; cbn [foldM].
  - intro H. injection H as <-. auto.
  - rewrite netmiko_step_extra_value.
    destruct (Str.contains netmiko_prefix k).
    + destruct (extra_value (Str.replace netmiko_prefix "" k) v) as [x|e];
        cbn [bind]; [|discriminate].
      intros H _. apply (IH _ H), setitem_not_nil.
    + cbn [bind]. apply IH.
Qed.

Lemma netmiko_fold_marker (data : row) (acc acc' : dict) (k : string) (v : value) :
  In (k, v) data -> Str.contains netmiko_prefix k = true ->
  foldM netmiko_step data acc = Ok acc' -> acc' <> [].
Proof.
  revert acc. induction data as [|[k0 v0] data IH]; intros acc Hin Hk; [contradiction|].
  cbn [foldM]. rewrite netmiko_step_extra_value.
  destruct Hin as [Hin|Hin].
  - injection Hin as -> ->. rewrite Hk.
    destruct (extra_value (Str.replace netmiko_prefix "" k) v) as [x|e];
      cbn [bind]; [|discriminate].
    intro H. apply (netmiko_fold_grows _ _ _ H), setitem_not_nil.
  - destruct (Str.contains netmiko_prefix k0).
    + destruct (extra_value (Str.replace netmiko_prefix "" k0) v0) as [x|e];
        cbn [bind]; [|discriminate].
      apply (IH _ Hin Hk).
    + cbn [bind]. apply (IH _ Hin Hk).
Qed.

(** What [_get_host_netmiko_options] returns in terms of the extras built by
    its loop. *)
Lemma netmiko_options_of_fold (data : row) (co : list (string * ConnectionOptions)) :
  _get_host_netmiko_options data = Ok co ->
  exists opts, foldM netmiko_step data [] = Ok opts /\
               ((opts = [] /\ co = []) \/ (opts <> [] /\ co = netmiko_entry opts)).
Proof.
  unfold _get_host_netmiko_options.
  destruct (foldM netmiko_step data []) as [opts|e]; cbn [bind]; [|discriminate].
  destruct opts as [|kv opts].
  - intro H. injection H as <-. exists []. split; [reflexivity|]. left. split; reflexivity.
  - rewrite netmiko_entry_eq. intro H. injection H as <-.
    exists (kv :: opts). split; [reflexivity|]. right. split; [discriminate | reflexivity].
Qed.

(** X3. [_get_host_netmiko_options] returns the empty mapping exactly when
    no field name of the row holds the marker [netmiko_]. *)
Theorem no_marker_iff_no_connection_options (data : row) :
  _get_host_netmiko_options data = Ok []
  <-> (forall k v, In (k, v) data -> Str.contains netmiko_prefix k = false).
Proof.
  split.
  - intros H k v Hin.
    destruct (netmiko_options_of_fold data _ H) as (opts & Hfold & [[-> _] | [_ Hco]]).
    + destruct (Str.contains netmiko_prefix k) eqn:Hk; [|reflexivity].
      exfalso. exact (netmiko_fold_marker data [] _ k v Hin Hk Hfold eq_refl).
    + discriminate Hco.
  - intro H. unfold _get_host_netmiko_options.
    rewrite (netmiko_fold_no_marker data [] H). reflexivity.
Qed.

Lemma netmiko_fold_Err_source (data : row) (acc : dict) (e : exn) :
  foldM netmiko_step data acc = Err e ->
  exists k v, In (k, v) data /\ Str.contains netmiko_prefix k = true /\
              Str.mem (Str.replace netmiko_prefix "" k) int_keys = true /\
              py_int v = Err e.
Proof.
  revert acc. induction data as [|[k v] data IH]; intro acc; cbn [foldM]; [discriminate|].
  destruct (netmiko_step acc (k, v)) as [acc1|e1] eqn:E; cbn [bind].
  - intro H. destruct (IH _ H) as (k' & v' & Hin & Hrest).
    exists k', v'. split; [right; exact Hin | exact Hrest].
  - intro H. injection H as <-. exists k, v. split; [left; reflexivity|].
    unfold netmiko_step in E.
    destruct (Str.contains netmiko_prefix k); [|discriminate].
    destruct (Str.mem (Str.replace netmiko_prefix "" k) int_keys).
    + destruct (py_int v) as [z|e0]; cbn [bind] in E; [discriminate|].
      injection E as <-. repeat split.
    + destruct (Str.mem (Str.replace netmiko_prefix "" k) bool_keys).
      * destruct (Str.mem (Str.lower (py_str v)) ["0"; "false"; "none"]); discriminate.
      * destruct (_empty v); discriminate.
Qed.

(** X4. The outcomes of [_get_host_netmiko_options]: the empty mapping; or
    the single entry [netmiko], whose five overrides are [None] and whose
    extras are not empty; or the exception that [int()] raises on the cell of
    a field whose stripped name is an integer key. Boolean and pass-through
    fields never raise. *)
Theorem connection_options_outcomes (data : row) :
  match _get_host_netmiko_options data with
  | Ok co => co = [] \/ exists opts, opts <> [] /\ co = netmiko_entry opts
  | Err e =>
      exists k v, In (k, v) data /\ Str.contains netmiko_prefix k = true /\
                  Str.mem (Str.replace netmiko_prefix "" k) int_keys = true /\
                  py_int v = Err e
  end.
Proof.
  destruct (_get_host_netmiko_options data) as [co|e] eqn:E.
  - destruct (netmiko_options_of_fold data _ E) as (opts & _ & [[_ ->] | [Hne ->]]).
    + left. reflexivity.
    + right. exists opts. split; [exact Hne | reflexivity].
  - unfold _get_host_netmiko_options in E.
    destruct (foldM netmiko_step data []) as [opts|e'] eqn:Hfold; cbn [bind] in E.
    + destruct opts; discriminate.
    + injection E as <-. exact (netmiko_fold_Err_source data [] _ Hfold).
Qed.

Lemma netmiko_fold_entries (data : row) (acc acc' : dict) (k' : string) (x : value) :
  foldM netmiko_step data acc = Ok acc' ->
  lookup String.eqb k' acc' = Some x ->
  lookup String.eqb k' acc = Some x \/
  exists k v, In (k, v) data /\ Str.contains netmiko_prefix k = true /\
              Str.replace netmiko_prefix "" k = k' /\ extra_value k' v = Ok x.
Proof.
  revert acc. induction data as [|[k v] data IH]; intro acc; cbn [foldM].
  - intro H. injection H as <-. auto.
  - rewrite netmiko_step_extra_value.
    destruct (Str.contains netmiko_prefix k) eqn:Hk.
    + destruct (extra_value (Str.replace netmiko_prefix "" k) v) as [x0|e] eqn:Hx;
        cbn [bind]; [|discriminate].
      intros Hfold Hlook.
      destruct (IH _ Hfold Hlook) as [Hacc | (k1 & v1 & Hin & Hrest)].
      * destruct (string_dec (Str.replace netmiko_prefix "" k) k') as [Heq|Hne].
        -- rewrite <- Heq, lookup_setitem_eq in Hacc. injection Hacc as ->.
           right. exists k, v. rewrite <- Heq.
           repeat split; [left; reflexivity | exact Hk | exact Hx].
        -- rewrite (lookup_setitem_neq _ _ _ _ Hne) in Hacc. left. exact Hacc.
      * right. exists k1, v1. split; [right; exact Hin | exact Hrest].
    + cbn [bind]. intros Hfold Hlook.
      destruct (IH _ Hfold Hlook) as [Hacc | (k1 & v1 & Hin & Hrest)].
      * left. exact Hacc.
      * right. exists k1, v1. split; [right; exact Hin | exact Hrest].
Qed.

(** X5. Every entry of the extras comes from a field of the row whose name
    holds the marker: its key is that name with the marker removed, and its
    value is the cell coerced by the table of that key. A field without the
    marker never reaches the extras. *)
Theorem extras_come_from_marked_fields (data : row) (opts : dict)
    (Hco : _get_host_netmiko_options data = Ok (netmiko_entry opts)) :
  forall k' x,
    lookup String.eqb k' opts = Some x ->
    exists k v, In (k, v) data /\ Str.contains netmiko_prefix k = true /\
                Str.replace netmiko_prefix "" k = k' /\ extra_value k' v = Ok x.
Proof.
  intros k' x Hlook.
  destruct (netmiko_options_of_fold data _ Hco) as (opts' & Hfold & [[_ H] | [_ H]]).
  - discriminate H.
  - injection H as ->.
    destruct (netmiko_fold_entries data [] _ k' _ Hfold Hlook) as [H|H];
      [discriminate H | exact H].
Qed.


(** The last field stripped to a key decides the entry of that key. *)
Lemma netmiko_last_writer (pre post : row) (k : string) (v : value)
    (co : list (string * ConnectionOptions)) :
  Str.contains netmiko_prefix k = true ->
  (forall k' v', In (k', v') post -> Str.contains netmiko_prefix k' = true ->
                 Str.replace netmiko_prefix "" k' <> Str.replace netmiko_prefix "" k) ->
  _get_host_netmiko_options (pre ++ (k, v) :: post) = Ok co ->
  exists opts x,
    co = netmiko_entry opts /\
    extra_value (Str.replace netmiko_prefix "" k) v = Ok x /\
    lookup String.eqb (Str.replace netmiko_prefix "" k) opts = Some x.
Proof.
  intros Hk Hlater Hco.
  destruct (netmiko_options_of_fold _ _ Hco) as (opts & Hfold & Hshape).
  rewrite foldM_app in Hfold.
  destruct (foldM netmiko_step pre []) as [acc|e]; cbn [bind foldM] in Hfold;
    [|discriminate].
  rewrite netmiko_step_extra_value, Hk in Hfold.
  destruct (extra_value (Str.replace netmiko_prefix "" k) v) as [x|e];
    cbn [bind] in Hfold; [|discriminate].
  pose proof (netmiko_fold_keeps _ post _ _ Hlater Hfold) as Hkeep.
  rewrite lookup_setitem_eq in Hkeep.
  exists opts, x. split; [|split; [reflexivity | exact Hkeep]].
  destruct Hshape as [[-> _] | [_ ->]]; [discriminate Hkeep | reflexivity].
Qed.

(** X6. When the builder returns, a field stripped to [fast_cli] (such as
    [netmiko_fast_cli]) that no later field overrides is stored as a
    boolean: [False] exactly when the lower-cased text of the cell is ["0"],
    ["false"] or ["none"] - so for [None], [False], [0] - and [True] for
    every other cell, the empty string among them. *)
Theorem fast_cli_is_false_for_0_false_none (pre post : row) (k : string) (v : value)
    (co : list (string * ConnectionOptions))
    (Hk : Str.contains netmiko_prefix k = true)
    (Hfast : Str.replace netmiko_prefix "" k = "fast_cli")
    (Hlater : forall k' v', In (k', v') post ->
                            Str.contains netmiko_prefix k' = true ->
                            Str.replace netmiko_prefix "" k' <> "fast_cli")
    (Hco : _get_host_netmiko_options (pre ++ (k, v) :: post) = Ok co) :
  exists opts,
    co = netmiko_entry opts /\
    lookup String.eqb "fast_cli" opts
    = Some (VBool (negb (Str.mem (Str.lower (py_str v)) ["0"; "false"; "none"]))) /\
    (v = VNone \/ v = VBool false \/ v = VInt 0 ->
     lookup String.eqb "fast_cli" opts = Some (VBool false)) /\
    (v = VStr "" \/ v = VBool true ->
     lookup String.eqb "fast_cli" opts = Some (VBool true)).
Proof.
  rewrite <- Hfast in Hlater.
  destruct (netmiko_last_writer pre post k v co Hk Hlater Hco)
    as (opts & x & Heq & Hx & Hlook).
  subst co.
  rewrite Hfast in Hx, Hlook. unfold extra_value in Hx. simpl Str.mem in Hx.
  injection Hx as <-.
  exists opts. split; [reflexivity|]. split; [exact Hlook|].
  split.
  - intros [-> | [-> | ->]]; exact Hlook.
  - intros [-> | ->]; exact Hlook.
Qed.

(** X7. When the builder returns, a field with the marker whose stripped
    name is neither an integer key nor [fast_cli], and that no later field
    overrides, is stored as it is, an empty cell as [None]. *)
Theorem other_marked_fields_pass_through (pre post : row) (k : string) (v : value)
    (co : list (string * ConnectionOptions))
    (Hk : Str.contains netmiko_prefix k = true)
    (Hint : Str.mem (Str.replace netmiko_prefix "" k) int_keys = false)
    (Hbool : Str.mem (Str.replace netmiko_prefix "" k) bool_keys = false)
    (Hlater : forall k' v', In (k', v') post ->
                            Str.contains netmiko_prefix k' = true ->
                            Str.replace netmiko_prefix "" k'
                            <> Str.replace netmiko_prefix "" k)
    (Hco : _get_host_netmiko_options (pre ++ (k, v) :: post) = Ok co) :
  exists opts,
    co = netmiko_entry opts /\
    lookup String.eqb (Str.replace netmiko_prefix "" k) opts
    = Some (if _empty v then VNone else v).
Proof.
  destruct (netmiko_last_writer pre post k v co Hk Hlater Hco)
    as (opts & x & Heq & Hx & Hlook).
  subst co.
  unfold extra_value in Hx. rewrite Hint, Hbool in Hx. injection Hx as <-.
  exists opts. split; [reflexivity | exact Hlook].
Qed.


(** *** The record built from a host or group row *)

(** The steps of [_get_inventory_element] that a returned record went
    through. *)
Lemma inventory_element_Ok (t : kind) (data : row) (d : Defaults) (e : element) :
  _get_inventory_element t data d = Ok e ->
  exists p gs co,
    coerce_int (get_default data "port" (VInt 22)) = Ok p /\
    (if truth (get data "groups")
     then exists s, get data "groups" = VStr s /\ gs = Str.split "," s
     else gs = []) /\
    _get_host_netmiko_options data = Ok co /\
    e = mkElement t
          (if truth (get data "name") then VStr (py_str (get data "name"))
           else get data "name")
          (coerce_str (get data "hostname")) p
          (coerce_str (get data "username")) (coerce_str (get data "password"))
          (coerce_str (get data "platform")) (_get_data data false) gs d co.
Proof.
  unfold _get_inventory_element.
  destruct (coerce_int (get_default data "port" (VInt 22))) as [p|x]; cbn [bind];
    [|discriminate].
  destruct (truth (get data "groups")) eqn:Hg.
  - destruct (get data "groups") as [| | | |s]; cbn [bind]; try discriminate.
    destruct (_get_host_netmiko_options data) as [co|x]; cbn [bind]; [|discriminate].
    intro H. injection H as <-.
    exists p, (Str.split "," s), co. repeat split. exists s. split; reflexivity.
  - cbn [bind].
    destruct (_get_host_netmiko_options data) as [co|x]; cbn [bind]; [|discriminate].
    intro H. injection H as <-.
    exists p, [], co. repeat split.
Qed.

Lemma split_cons (c : ascii) (s : string) :
  exists h t, Str.split c s = h :: t.
Proof.
  destruct s as [|a s]; simpl; [eauto|].
  destruct (Ascii.eqb a c); [eauto|].
  destruct (Str.split c s); eauto.
Qed.

Lemma concat_cons_char (sep : string) (a : ascii) (h : string) (t : list string) :
  String.concat sep (String a h :: t) = String a (String.concat sep (h :: t)).
Proof. destruct t; reflexivity. Qed.

(** Joining the pieces of a split with the separator gives the string back. *)
Lemma concat_split (c : ascii) (s : string) :
  String.concat (String c "") (Str.split c s) = s.
Proof.
  induction s as [|a s IH]; simpl; [reflexivity|].
  destruct (Ascii.eqb a c) eqn:E.
  - apply Ascii.eqb_eq in E. subst a.
    destruct (split_cons c s) as (h & t & Hs). rewrite Hs in *.
    change (String.concat (String c "") ("" :: h :: t))
      with (String c (String.concat (String c "") (h :: t))).
    rewrite IH. reflexivity.
  - destruct (split_cons c s) as (h & t & Hs). rewrite Hs in *.
    rewrite concat_cons_char, IH. reflexivity.
Qed.

Lemma contains_char_cons (c a : ascii) (g : string) :
  Str.contains (String c "") (String a g)
  = Ascii.eqb a c || Str.contains (String c "") g.
Proof.
  simpl. destruct (ascii_dec c a) as [->|Hne].
  - rewrite Ascii.eqb_refl. destruct g; reflexivity.
  - destruct (Ascii.eqb a c) eqn:E; [|reflexivity].
    apply Ascii.eqb_eq in E. subst a. contradiction.
Qed.

(** No piece of a split holds the separator. *)
Lemma split_pieces (c : ascii) (s g : string) :
  In g (Str.split c s) -> Str.contains (String c "") g = false.
Proof.
  revert g. induction s as [|a s IH]; simpl; intro g.
  - intros [<-|[]]. reflexivity.
  - destruct (Ascii.eqb a c) eqn:E.
    + intros [<-|H]; [reflexivity | apply IH, H].
    + destruct (split_cons c s) as (h & t & Hs). rewrite Hs in *.
      intros [<-|H].
      * rewrite contains_char_cons, E. apply IH. left. reflexivity.
      * apply IH. right. exact H.
Qed.

(** X8. The group list of a built host or group: empty when the [groups]
    cell is absent or falsy; otherwise the cell split at every comma -
    pieces are neither trimmed nor merged, so joining them with commas gives
    the cell back, and no piece holds a comma. *)
Theorem groups_cell_is_split_on_commas (t : kind) (data : row) (d : Defaults)
    (e : element) (Hbuild : _get_inventory_element t data d = Ok e) :
  (truth (get data "groups") = false -> e_groups e = []) /\
  (forall s, get data "groups" = VStr s -> s <> "" ->
     e_groups e = Str.split "," s /\ e_groups e <> [] /\
     String.concat "," (e_groups e) = s /\
     (forall g, In g (e_groups e) -> Str.contains "," g = false)).
Proof.
  destruct (inventory_element_Ok t data d e Hbuild) as (p & gs & co & _ & Hgs & _ & ->).
  simpl e_groups. split.
  - intro Hf. rewrite Hf in Hgs. exact Hgs.
  - intros s Hs Hne. rewrite Hs in Hgs. simpl truth in Hgs.
    destruct (String.eqb s "") eqn:E; [apply String.eqb_eq in E; contradiction|].
    simpl in Hgs. destruct Hgs as (s' & Heq & ->). injection Heq as <-.
    split; [reflexivity|]. split; [|split].
    + destruct (split_cons "," s) as (h & tl & ->). discriminate.
    + apply concat_split.
    + intros g Hin. exact (split_pieces "," s g Hin).
Qed.

(** X9. A [groups] cell that is truthy and no string - a number, [True], a
    NaN - makes the build of a host or group raise [AttributeError] (the
    cell has no [split]) once the port is converted. *)
Theorem non_string_groups_cell_raises (t : kind) (data : row) (d : Defaults)
    (p : value)
    (Hport : coerce_int (get_default data "port" (VInt 22)) = Ok p)
    (Htruthy : truth (get data "groups") = true)
    (Hnostr : forall s, get data "groups" <> VStr s) :
  _get_inventory_element t data d = Err AttributeError.
Proof.
  unfold _get_inventory_element. rewrite Hport, Htruthy. cbn [bind].
  destruct (get data "groups") as [| | | |s]; try reflexivity.
  exfalso. exact (Hnostr s eq_refl).
Qed.

(** X10. A [port] cell that is truthy, not empty and rejected by [int()]
    makes both builds raise the exception of [int()]: the host or group
    build, and the defaults build although its record keeps the raw cell. *)
Theorem port_conversion_error_propagates (data : row) (c : value) (x : exn)
    (Hcell : lookup String.eqb "port" data = Some c)
    (Htruthy : truth c = true) (Hfull : _empty c = false)
    (Hint : py_int c = Err x) :
  (forall t d, _get_inventory_element t data d = Err x) /\
  _get_defaults data = Err x.
Proof.
  assert (Hc : coerce_int c = Err x).
  { unfold coerce_int. rewrite Htruthy, Hfull, Hint. reflexivity. }
  split.
  - intros t d. unfold _get_inventory_element, get_default.
    rewrite Hcell, Hc. reflexivity.
  - unfold _get_defaults, get, get_default. rewrite Hcell, Hc. reflexivity.
Qed.

Lemma coerce_str_shape (x : value) :
  (coerce_str x = VNone <-> none_or_nan x = true) /\
  ((exists s, coerce_str x = VStr s) \/ truth (coerce_str x) = false).
Proof.
  unfold coerce_str.
  destruct x as [|b|z|f|s]; simpl.
  - split; [split; reflexivity | right; reflexivity].
  - destruct b; simpl; (split; [split; discriminate|]); eauto.
  - destruct (z =? 0) eqn:E; simpl; (split; [split; discriminate|]); eauto.
    right. simpl. rewrite E. reflexivity.
  - destruct f as [sg|sg| |sg m ex]; simpl;
      (split; [split; try discriminate; reflexivity|]); eauto.
  - destruct (String.eqb s "") eqn:E; simpl.
    + split; [split; discriminate|]. right. simpl. rewrite E. reflexivity.
    + unfold _empty, py_eqb. simpl. rewrite E. simpl.
      split; [split; discriminate|]. eauto.
Qed.

Lemma coerce_int_shape (x p : value) :
  coerce_int x = Ok p ->
  (p = VNone <-> none_or_nan x = true) /\
  ((exists z, p = VInt z) \/ truth p = false).
Proof.
  unfold coerce_int.
  destruct x as [|b|z|f|s]; simpl.
  - intro H. injection H as <-. split; [split; reflexivity | right; reflexivity].
  - destruct b; simpl; intro H; injection H as <-;
      (split; [split; discriminate|]); eauto.
  - destruct (z =? 0) eqn:E; simpl; intro H; injection H as <-;
      (split; [split; discriminate|]); eauto.
  - destruct f as [sg|sg| |sg m ex]; simpl; try discriminate;
      intro H; injection H as <-;
      (split; [split; try discriminate; reflexivity|]); eauto.
  - destruct (String.eqb s "") eqn:E; simpl.
    + intro H. injection H as <-.
      split; [split; discriminate|]. right. simpl. rewrite E. reflexivity.
    + unfold _empty, py_eqb. simpl. rewrite E. simpl.
      destruct (Str.to_int s); simpl; [|discriminate].
      intro H. injection H as <-. split; [split; discriminate|]. eauto.
Qed.

Lemma identity_fields_shape (t : kind) (data : row)
    (d : Defaults) (e : element)
    (Hbuild : _get_inventory_element t data d = Ok e) :
  (e_hostname e = VNone <-> none_or_nan (get data "hostname") = true) /\
  (e_username e = VNone <-> none_or_nan (get data "username") = true) /\
  (e_password e = VNone <-> none_or_nan (get data "password") = true) /\
  (e_platform e = VNone <-> none_or_nan (get data "platform") = true) /\
  (e_port e = VNone <->
   exists c, lookup String.eqb "port" data = Some c /\ none_or_nan c = true) /\
  (forall f, In f [e_hostname e; e_username e; e_password e; e_platform e] ->
             (exists s, f = VStr s) \/ truth f = false) /\
  ((exists z, e_port e = VInt z) \/ truth (e_port e) = false).
Proof.
  destruct (inventory_element_Ok t data d e Hbuild) as (p & gs & co & Hp & _ & _ & ->).
  simpl.
  destruct (coerce_int_shape _ _ Hp) as [Hnone Hshape].
  repeat split; try apply coerce_str_shape; try exact Hshape.
  - intro H. apply Hnone in H. unfold get_default in H.
    destruct (lookup String.eqb "port" data) as [c|]; [|discriminate].
    exists c. split; [reflexivity | exact H].
  - intros (c & Hc & Hn). apply Hnone. unfold get_default. rewrite Hc. exact Hn.
  - intros f [<-|[<-|[<-|[<-|[]]]]]; apply coerce_str_shape.
Qed.

(** A truthy cell is empty only when it is a NaN. *)
Lemma truthy_empty_is_nan (c : value) :
  truth c = true -> _empty c = none_or_nan c.
Proof.
  destruct c as [|b|z|[sg|sg| |sg m ex]|s]; simpl; try discriminate;
    try reflexivity.
  intro H. unfold _empty, py_eqb. simpl.
  destruct (String.eqb s ""); [discriminate H | reflexivity].
Qed.

Lemma coerce_str_cases (c : value) :
  (truth c = false -> coerce_str c = c) /\
  (truth c = true -> none_or_nan c = false -> coerce_str c = VStr (py_str c)).
Proof.
  unfold coerce_str. split.
  - intros ->. reflexivity.
  - intros Ht Hn. rewrite Ht, (truthy_empty_is_nan c Ht), Hn. reflexivity.
Qed.

Lemma coerce_int_cases (c p : value) :
  coerce_int c = Ok p ->
  (truth c = false -> p = c) /\
  (truth c = true -> none_or_nan c = false ->
   exists z, py_int c = Ok z /\ p = VInt z).
Proof.
  unfold coerce_int. intro H. split.
  - intro Ht. rewrite Ht in H. injection H as <-. reflexivity.
  - intros Ht Hn. rewrite Ht, (truthy_empty_is_nan c Ht), Hn in H. cbn [negb] in H.
    destruct (py_int c) as [z|x]; cbn [bind] in H; [|discriminate].
    injection H as <-. exists z. split; reflexivity.
Qed.

(** X11. In a built host or group, hostname, username, password and platform
    are unset exactly when the cell is absent, [None] or NaN; a falsy cell is
    stored as it is, and any other cell as its text [str(cell)]. The port is
    unset exactly when the [port] key is there with [None] or NaN; a falsy
    port cell is stored as it is, and any other cell (22 when the key is
    absent) as the integer [int(cell)]. So each of the four is a string or
    falsy, and the port an integer or falsy. *)
Theorem identity_fields_unset_iff_none_or_nan (t : kind) (data : row)
    (d : Defaults) (e : element)
    (Hbuild : _get_inventory_element t data d = Ok e) :
  (e_hostname e = VNone <-> none_or_nan (get data "hostname") = true) /\
  (e_username e = VNone <-> none_or_nan (get data "username") = true) /\
  (e_password e = VNone <-> none_or_nan (get data "password") = true) /\
  (e_platform e = VNone <-> none_or_nan (get data "platform") = true) /\
  (e_port e = VNone <->
   exists c, lookup String.eqb "port" data = Some c /\ none_or_nan c = true) /\
  (forall f, In f [e_hostname e; e_username e; e_password e; e_platform e] ->
             (exists s, f = VStr s) \/ truth f = false) /\
  ((exists z, e_port e = VInt z) \/ truth (e_port e) = false) /\
  (forall k f,
      In (k, f) [("hostname", e_hostname e); ("username", e_username e);
                 ("password", e_password e); ("platform", e_platform e)] ->
      (truth (get data k) = false -> f = get data k) /\
      (truth (get data k) = true -> none_or_nan (get data k) = false ->
       f = VStr (py_str (get data k)))) /\
  (truth (get_default data "port" (VInt 22)) = false ->
   e_port e = get_default data "port" (VInt 22)) /\
  (truth (get_default data "port" (VInt 22)) = true ->
   none_or_nan (get_default data "port" (VInt 22)) = false ->
   exists z, py_int (get_default data "port" (VInt 22)) = Ok z /\
             e_port e = VInt z).
Proof.
  destruct (identity_fields_shape t data d e Hbuild)
    as (H1 & H2 & H3 & H4 & H5 & H6 & H7).
  do 7 (split; [assumption|]).
  destruct (inventory_element_Ok t data d e Hbuild) as (p & gs & co & Hp & _ & _ & ->).
  simpl. split; [|exact (coerce_int_cases _ _ Hp)].
  intros k f [H|[H|[H|[H|[]]]]]; injection H as <- <-; apply coerce_str_cases.
Qed.


(** *** Equality of keys *)

Lemma pow2_pos (n : Z) : 0 <= n -> 0 < 2 ^ n.
Proof. intro H. apply Z.pow_pos_nonneg; lia. Qed.

(** Two dyadic numbers can be compared at any exponent below both. *)
Lemma fin_eq_shift (m1 e1 m2 e2 c : Z) :
  c <= e1 -> c <= e2 ->
  (m1 * 2 ^ (e1 - Z.min e1 e2) = m2 * 2 ^ (e2 - Z.min e1 e2)
   <-> m1 * 2 ^ (e1 - c) = m2 * 2 ^ (e2 - c)).
Proof.
  intros H1 H2.
  set (mn := Z.min e1 e2).
  assert (Hmn : c <= mn /\ mn <= e1 /\ mn <= e2) by (unfold mn; lia).
  replace (e1 - c) with ((e1 - mn) + (mn - c)) by lia.
  replace (e2 - c) with ((e2 - mn) + (mn - c)) by lia.
  rewrite !Z.pow_add_r by lia.
  rewrite !Z.mul_assoc.
  pose proof (pow2_pos (mn - c)) as Hpos.
  split.
  - intros ->. reflexivity.
  - intro H. apply Z.mul_reg_r in H; [exact H | lia].
Qed.

Lemma num_eqb_sym (a b : num) : num_eqb a b = num_eqb b a.
Proof.
  destruct a as [m1 e1|s1|], b as [m2 e2|s2|]; simpl; try reflexivity.
  - rewrite (Z.min_comm e2 e1). apply Z.eqb_sym.
  - destruct s1, s2; reflexivity.
Qed.

Lemma num_eqb_euclid (a b c : num) :
  num_eqb a b = true -> num_eqb a c = true -> num_eqb b c = true.
Proof.
  destruct a as [m1 e1|s1|], b as [m2 e2|s2|], c as [m3 e3|s3|]; simpl;
    try discriminate.
  - rewrite !Z.eqb_eq. intros H12 H13.
    set (c := Z.min e1 (Z.min e2 e3)).
    apply (fin_eq_shift m1 e1 m2 e2 c) in H12; [|unfold c; lia|unfold c; lia].
    apply (fin_eq_shift m1 e1 m3 e3 c) in H13; [|unfold c; lia|unfold c; lia].
    apply (fin_eq_shift m2 e2 m3 e3 c); [unfold c; lia|unfold c; lia|].
    congruence.
  - destruct s1, s2, s3; simpl; congruence.
Qed.

Lemma py_eqb_sym (x y : value) : py_eqb x y = py_eqb y x.
Proof.
  destruct x as [|b|z|[sg|sg| |sg m ex]|s], y as [|b'|z'|[sg'|sg'| |sg' m' ex']|s'];
    unfold py_eqb; cbn [num_of]; try reflexivity;
    try apply String.eqb_sym; apply num_eqb_sym.
Qed.

Lemma py_eqb_num (x y : value) :
  py_eqb x y = true ->
  (x = VNone /\ y = VNone) \/ (exists a b, x = VStr a /\ y = VStr b /\ a = b) \/
  (exists a b, num_of x = Some a /\ num_of y = Some b /\ num_eqb a b = true).
Proof.
  destruct x as [|b|z|[sg|sg| |sg m ex]|s], y as [|b'|z'|[sg'|sg'| |sg' m' ex']|s'];
    unfold py_eqb; cbn [num_of]; intro H; try discriminate H;
    first [ left; split; reflexivity
          | right; left; apply String.eqb_eq in H; eauto
          | right; right; do 2 eexists;
            split; [reflexivity | split; [reflexivity | exact H]] ].
Qed.

Lemma py_eqb_of_num (x y : value) (a b : num) :
  num_of x = Some a -> num_of y = Some b -> py_eqb x y = num_eqb a b.
Proof.
  destruct x as [|bx|zx|[sg|sg| |sg m ex]|sx], y as [|by'|zy|[sg'|sg'| |sg' m' ex']|sy];
    cbn [num_of]; intros Hx Hy; try discriminate Hx; try discriminate Hy;
    injection Hx as <-; injection Hy as <-; reflexivity.
Qed.

(** Keys equal to one key are equal to each other. *)
Lemma py_eqb_euclid (x y z : value) :
  py_eqb x y = true -> py_eqb x z = true -> py_eqb y z = true.
Proof.
  intros Hxy Hxz.
  destruct (py_eqb_num x y Hxy) as [[-> ->] | [(a & b & -> & -> & <-) | (a & b & Ha & Hb & Hab)]].
  - exact Hxz.
  - exact Hxz.
  - destruct (py_eqb_num x z Hxz) as [[-> _] | [(a' & c & -> & _ & _) | (a' & c & Ha' & Hc & Hac)]];
      try discriminate.
    rewrite Ha in Ha'. injection Ha' as <-.
    rewrite (py_eqb_of_num y z b c Hb Hc). exact (num_eqb_euclid a b c Hab Hac).
Qed.

(** Every key but a NaN is equal to itself; an empty name is no key. *)
Lemma py_eqb_refl (x : value) : x <> VFloat S754_nan -> py_eqb x x = true.
Proof.
  destruct x as [|b|z|[sg|sg| |sg m ex]|s]; unfold py_eqb; cbn [num_of num_eqb];
    intro H; try reflexivity; try apply Z.eqb_refl; try apply String.eqb_refl.
  - destruct sg; reflexivity.
  - contradiction.
Qed.

Lemma nonempty_key_refl (n : value) : _empty n = false -> py_eqb n n = true.
Proof. intro H. apply py_eqb_refl. intros ->. discriminate H. Qed.

(** *** Insertion into the hosts and groups mappings *)

Lemma lookup_setitem_same {V : Type} (k : value) (v : V) (d : list (value * V)) :
  py_eqb k k = true -> lookup py_eqb k (setitem py_eqb k v d) = Some v.
Proof.
  intro Hk. induction d as [|[k0 v0] d IH]; simpl.
  - rewrite Hk. reflexivity.
  - destruct (py_eqb k0 k) eqn:E; simpl; rewrite E; [reflexivity | exact IH].
Qed.

Lemma lookup_setitem_other {V : Type} (k k' : value) (v : V) (d : list (value * V)) :
  py_eqb k' k = false ->
  lookup py_eqb k (setitem py_eqb k' v d) = lookup py_eqb k d.
Proof.
  intro Hne. induction d as [|[k0 v0] d IH]; simpl.
  - rewrite Hne. reflexivity.
  - destruct (py_eqb k0 k') eqn:E; simpl.
    + destruct (py_eqb k0 k) eqn:E'; [|reflexivity].
      rewrite (py_eqb_euclid k0 k' k E E') in Hne. discriminate.
    + destruct (py_eqb k0 k); [reflexivity | exact IH].
Qed.

Lemma lookup_setitem_present {V : Type} (k k' : value) (v : V) (d : list (value * V)) :
  lookup py_eqb k d <> None -> lookup py_eqb k (setitem py_eqb k' v d) <> None.
Proof.
  induction d as [|[k0 v0] d IH]; simpl; intro H.
  - contradiction.
  - destruct (py_eqb k0 k') eqn:E; simpl.
    + destruct (py_eqb k0 k); [discriminate | exact H].
    + destruct (py_eqb k0 k); [discriminate | exact (IH H)].
Qed.

Lemma In_setitem {V : Type} (k n : value) (v v' : V) (d : list (value * V)) :
  In (k, v) (setitem py_eqb n v' d) ->
  In (k, v) d \/ (v = v' /\ (k = n \/ py_eqb k n = true)).
Proof.
  induction d as [|[k0 v0] d IH]; simpl.
  - intros [H|[]]. injection H as <- <-. right. split; [reflexivity | left; reflexivity].
  - destruct (py_eqb k0 n) eqn:E; simpl.
    + intros [H|H].
      * injection H as <- <-. right. split; [reflexivity | right; exact E].
      * left. right. exact H.
    + intros [H|H].
      * left. left. exact H.
      * destruct (IH H) as [H'|H']; [left; right; exact H' | right; exact H'].
Qed.


(** *** The mappings of a loaded inventory *)

Lemma load_row_Ok (t : kind) (d : Defaults) (acc acc' : list (value * element))
    (r : row) :
  load_row t d acc r = Ok acc' ->
  exists n e, lookup String.eqb "name" r = Some n /\ _empty n = false /\
              _get_inventory_element t r d = Ok e /\
              acc' = setitem py_eqb n e acc.
Proof.
  unfold load_row, getitem.
  destruct (lookup String.eqb "name" r) as [n|]; cbn [bind]; [|discriminate].
  destruct (_empty n) eqn:En; cbn [negb]; [discriminate|].
  destruct (_get_inventory_element t r d) as [e|x]; cbn [bind]; [|discriminate].
  intro H. injection H as <-. exists n, e. repeat split. exact En.
Qed.

(** What a returned inventory holds: the defaults of the defaults step and
    the two mappings as the row loops left them. *)
Lemma load_Ok (self : FlatDataInventory) (inv : Inventory) :
  load self = Ok inv ->
  load_defaults self = Ok (inv_defaults inv) /\
  foldM (load_row Group (inv_defaults inv)) (groups_data self) []
  = Ok (inv_groups inv) /\
  foldM (load_row Host (inv_defaults inv)) (hosts_data self) []
  = Ok (inv_hosts inv).
Proof.
  unfold load.
  destruct (load_defaults self) as [d|x]; cbn [bind]; [|discriminate].
  destruct (load_groups self d) as [gs|x] eqn:Hgs; cbn [bind]; [|discriminate].
  unfold load_hosts.
  destruct (foldM (load_row Host d) (hosts_data self) []) as [hs|x] eqn:Hhs;
    cbn [bind]; [|discriminate].
  destruct (resolve_all_cases gs hs) as [[Hres _] | (g & _ & _ & Hres)];
    rewrite Hres; cbn [bind]; [|discriminate].
  intro H. injection H as <-. simpl.
  split; [reflexivity|]. split; [|exact Hhs].
  unfold load_groups in Hgs.
  destruct (groups_data self) as [|r rows]; [injection Hgs as <-; reflexivity|].
  destruct (foldM (load_row Group d) (r :: rows) []) as [g0|x]; cbn [bind] in Hgs;
    [|discriminate].
  destruct (resolve_all_cases g0 g0) as [[Hres0 _] | (g & _ & _ & Hres0)];
    rewrite Hres0 in Hgs; [|discriminate].
  injection Hgs as <-. reflexivity.
Qed.

Lemma rows_are_keyed (t : kind) (d : Defaults) (rows : list row)
    (acc acc' : list (value * element)) :
  foldM (load_row t d) rows acc = Ok acc' ->
  (forall k, lookup py_eqb k acc <> None -> lookup py_eqb k acc' <> None) /\
  (forall r, In r rows ->
     exists n, lookup String.eqb "name" r = Some n /\ _empty n = false /\
               lookup py_eqb n acc' <> None).
Proof.
  revert acc. induction rows as [|r0 rows IH]; intro acc; cbn [foldM].
  - intro H. injection H as <-. split; [auto | intros r []].
  - destruct (load_row t d acc r0) as [acc1|x] eqn:E; cbn [bind]; [|discriminate].
    intro H. destruct (IH _ H) as [Hkeep Hrows].
    destruct (load_row_Ok _ _ _ _ _ E) as (n & e & Hn & He & _ & ->).
    split.
    + intros k Hk. apply Hkeep, lookup_setitem_present, Hk.
    + intros r [<-|Hin]; [|exact (Hrows r Hin)].
      exists n. split; [exact Hn | split; [exact He|]].
      apply Hkeep. rewrite (lookup_setitem_same _ _ _ (nonempty_key_refl _ He)).
      discriminate.
Qed.

Lemma entries_are_built (t : kind) (d : Defaults) (rows : list row)
    (acc acc' : list (value * element)) :
  foldM (load_row t d) rows acc = Ok acc' ->
  forall k e, In (k, e) acc' ->
    In (k, e) acc \/
    exists r n, In r rows /\ lookup String.eqb "name" r = Some n /\
                _empty n = false /\ py_eqb k n = true /\
                _get_inventory_element t r d = Ok e.
Proof.
  revert acc. induction rows as [|r0 rows IH]; intro acc; cbn [foldM].
  - intro H. injection H as <-. auto.
  - destruct (load_row t d acc r0) as [acc1|x] eqn:E; cbn [bind]; [|discriminate].
    intros H k e Hin.
    destruct (load_row_Ok _ _ _ _ _ E) as (n & e0 & Hn & He & Hb & ->).
    destruct (IH _ H k e Hin) as [Hacc | (r & n' & Hr & Hrest)].
    + destruct (In_setitem _ _ _ _ _ Hacc) as [Hold | [-> Hk]]; [left; exact Hold|].
      right. exists r0, n. split; [left; reflexivity|].
      split; [exact Hn|]. split; [exact He|]. split; [|exact Hb].
      destruct Hk as [->|Hk]; [exact (nonempty_key_refl _ He) | exact Hk].
    + right. exists r, n'. split; [right; exact Hr | exact Hrest].
Qed.

Lemma later_rows_keep (t : kind) (d : Defaults) (post : list row)
    (acc acc' : list (value * element)) (n : value) :
  foldM (load_row t d) post acc = Ok acc' ->
  (forall r' n', In r' post -> lookup String.eqb "name" r' = Some n' ->
                 py_eqb n' n = false) ->
  lookup py_eqb n acc' = lookup py_eqb n acc.
Proof.
  revert acc. induction post as [|r0 post IH]; intro acc; cbn [foldM].
  - intros H _. injection H as <-. reflexivity.
  - destruct (load_row t d acc r0) as [acc1|x] eqn:E; cbn [bind]; [|discriminate].
    intros H Hlater.
    destruct (load_row_Ok _ _ _ _ _ E) as (n0 & e0 & Hn & _ & _ & ->).
    rewrite (IH _ H); [|intros r' n' Hin; apply Hlater; right; exact Hin].
    apply lookup_setitem_other. apply (Hlater r0 n0); [left; reflexivity | exact Hn].
Qed.

Lemma last_row_wins (t : kind) (d : Defaults) (pre post : list row) (r : row)
    (acc : list (value * element)) (n : value) :
  foldM (load_row t d) (pre ++ r :: post) [] = Ok acc ->
  lookup String.eqb "name" r = Some n ->
  (forall r' n', In r' post -> lookup String.eqb "name" r' = Some n' ->
                 py_eqb n' n = false) ->
  exists e, _get_inventory_element t r d = Ok e /\ lookup py_eqb n acc = Some e.
Proof.
  intros Hfold Hn Hlater. rewrite foldM_app in Hfold.
  destruct (foldM (load_row t d) pre []) as [acc0|x]; cbn [bind foldM] in Hfold;
    [|discriminate].
  destruct (load_row t d acc0 r) as [acc1|x] eqn:E; cbn [bind] in Hfold;
    [|discriminate].
  destruct (load_row_Ok _ _ _ _ _ E) as (n0 & e & Hn0 & He & Hb & ->).
  rewrite Hn in Hn0. injection Hn0 as <-.
  exists e. split; [exact Hb|].
  rewrite (later_rows_keep _ _ _ _ _ _ Hfold Hlater).
  apply lookup_setitem_same, nonempty_key_refl, He.
Qed.

(** X12. In a returned inventory every group row and every host row has a
    name that is not empty and is a key of the groups mapping, respectively
    of the hosts mapping: no row is skipped. *)
Theorem every_row_name_is_a_key (self : FlatDataInventory) (inv : Inventory)
    (Hload : load self = Ok inv) :
  (forall r, In r (groups_data self) ->
     exists n, lookup String.eqb "name" r = Some n /\ _empty n = false /\
               lookup py_eqb n (inv_groups inv) <> None) /\
  (forall r, In r (hosts_data self) ->
     exists n, lookup String.eqb "name" r = Some n /\ _empty n = false /\
               lookup py_eqb n (inv_hosts inv) <> None).
Proof.
  destruct (load_Ok self inv Hload) as (_ & Hg & Hh).
  split.
  - exact (proj2 (rows_are_keyed _ _ _ _ _ Hg)).
  - exact (proj2 (rows_are_keyed _ _ _ _ _ Hh)).
Qed.

(** X13. Every entry of the groups mapping of a returned inventory is a
    [Group], every entry of its hosts mapping a [Host]; each refers to the
    inventory's defaults and is the record built from a row of its kind whose
    name cell equals the entry's key; its name is the text of that cell (the
    cell itself when it is falsy). *)
Theorem every_entry_is_built_from_a_row (self : FlatDataInventory) (inv : Inventory)
    (Hload : load self = Ok inv) :
  forall (t : kind) (k : value) (e : element),
    In (k, e) (match t with Group => inv_groups inv | Host => inv_hosts inv end) ->
    e_typ e = t /\ e_defaults e = inv_defaults inv /\
    exists r n,
      In r (match t with Group => groups_data self | Host => hosts_data self end) /\
      lookup String.eqb "name" r = Some n /\ _empty n = false /\
      py_eqb k n = true /\
      _get_inventory_element t r (inv_defaults inv) = Ok e /\
      e_name e = (if truth n then VStr (py_str n) else n).
Proof.
  destruct (load_Ok self inv Hload) as (_ & Hg & Hh).
  assert (Hgen : forall t rows acc,
             foldM (load_row t (inv_defaults inv)) rows [] = Ok acc ->
             forall k e, In (k, e) acc ->
               e_typ e = t /\ e_defaults e = inv_defaults inv /\
               exists r n,
                 In r rows /\ lookup String.eqb "name" r = Some n /\
                 _empty n = false /\ py_eqb k n = true /\
                 _get_inventory_element t r (inv_defaults inv) = Ok e /\
                 e_name e = (if truth n then VStr (py_str n) else n)).
  { intros t rows acc Hfold k e Hin.
    destruct (entries_are_built _ _ _ _ _ Hfold k e Hin)
      as [[] | (r & n & Hr & Hn & He & Hk & Hb)].
    destruct (inventory_element_Ok _ _ _ _ Hb) as (p & gs & co & _ & _ & _ & Heq).
    assert (Hname : get r "name" = n) by (unfold get, get_default; rewrite Hn; reflexivity).
    rewrite Hname in Heq.
    split; [rewrite Heq; reflexivity|]. split; [rewrite Heq; reflexivity|].
    exists r, n. repeat split; try assumption. rewrite Heq. reflexivity. }
  intros [|] k e Hin.
  - exact (Hgen Host _ _ Hh k e Hin).
  - exact (Hgen Group _ _ Hg k e Hin).
Qed.

(** X14. Rows with equal names overwrite each other, the last one wins: in a
    returned inventory the entry found under a row's name is the record built
    from that row, when no later row of its kind has an equal name. *)
Theorem last_row_of_a_name_wins (self : FlatDataInventory) (inv : Inventory)
    (t : kind) (pre post : list row) (r : row) (n : value)
    (Hload : load self = Ok inv)
    (Hrows : match t with Group => groups_data self | Host => hosts_data self end
             = pre ++ r :: post)
    (Hname : lookup String.eqb "name" r = Some n)
    (Hlater : forall r' n', In r' post -> lookup String.eqb "name" r' = Some n' ->
                            py_eqb n' n = false) :
  exists e,
    _get_inventory_element t r (inv_defaults inv) = Ok e /\
    lookup py_eqb n (match t with Group => inv_groups inv | Host => inv_hosts inv end)
    = Some e.
Proof.
  destruct (load_Ok self inv Hload) as (_ & Hg & Hh).
  destruct t.
  - rewrite Hrows in Hh. exact (last_row_wins _ _ _ _ _ _ _ Hh Hname Hlater).
  - rewrite Hrows in Hg. exact (last_row_wins _ _ _ _ _ _ _ Hg Hname Hlater).
Qed.


Lemma foldM_Err_step {A S : Type} (f : S -> A -> result S) (l : list A) (s : S)
    (x : exn) :
  foldM f l s = Err x -> exists s' a, In a l /\ f s' a = Err x.
Proof.
  revert s. induction l as [|a l IH]; intro s; cbn [foldM]; [discriminate|].
  destruct (f s a) as [s1|x1] eqn:E; cbn [bind].
  - intro H. destruct (IH _ H) as (s' & a' & Hin & Hf).
    exists s', a'. split; [right; exact Hin | exact Hf].
  - intro H. injection H as <-. exists s, a. split; [left; reflexivity | exact E].
Qed.

Lemma coerce_int_Err (c : value) (x : exn) :
  coerce_int c = Err x -> conversion_error x = true.
Proof.
  unfold coerce_int. destruct (truth c); [|discriminate].
  destruct (_empty c); cbn [negb]; [discriminate|].
  destruct (py_int c) as [z|x0] eqn:E; cbn [bind]; [discriminate|].
  intro H. injection H as <-. exact (py_int_conversion_error _ _ E).
Qed.

Lemma inventory_element_Err (t : kind) (data : row) (d : Defaults) (x : exn) :
  _get_inventory_element t data d = Err x ->
  conversion_error x = true \/ x = AttributeError.
Proof.
  unfold _get_inventory_element.
  destruct (coerce_int (get_default data "port" (VInt 22))) as [p|x0] eqn:Ep;
    cbn [bind].
  - destruct (truth (get data "groups")).
    + destruct (get data "groups") as [| | | |s]; cbn [bind];
        try (intro H; injection H as <-; right; reflexivity).
      destruct (_get_host_netmiko_options data) as [co|x0] eqn:Eo; cbn [bind];
        [discriminate|].
      intro H. injection H as <-. left. exact (netmiko_options_Err _ _ Eo).
    + cbn [bind].
      destruct (_get_host_netmiko_options data) as [co|x0] eqn:Eo; cbn [bind];
        [discriminate|].
      intro H. injection H as <-. left. exact (netmiko_options_Err _ _ Eo).
  - intro H. injection H as <-. left. exact (coerce_int_Err _ _ Ep).
Qed.

Lemma defaults_Err (data : row) (x : exn) :
  _get_defaults data = Err x -> conversion_error x = true.
Proof.
  unfold _get_defaults.
  destruct (coerce_int (get data "port")) as [p|x0] eqn:Ep; cbn [bind].
  - destruct (_get_host_netmiko_options data) as [co|x0] eqn:Eo; cbn [bind];
      [discriminate|].
    intro H. injection H as <-. exact (netmiko_options_Err _ _ Eo).
  - intro H. injection H as <-. exact (coerce_int_Err _ _ Ep).
Qed.

Lemma conversion_is_load_error (x : exn) :
  conversion_error x = true -> load_error x = true.
Proof. destruct x; simpl; try discriminate; reflexivity. Qed.

Lemma load_row_Err (t : kind) (d : Defaults) (acc : list (value * element))
    (r : row) (x : exn) :
  load_row t d acc r = Err x -> load_error x = true.
Proof.
  unfold load_row, getitem.
  destruct (lookup String.eqb "name" r) as [n|]; cbn [bind].
  - destruct (_empty n); cbn [negb].
    + intro H. injection H as <-. reflexivity.
    + destruct (_get_inventory_element t r d) as [e|x0] eqn:E; cbn [bind];
        [discriminate|].
      intro H. injection H as <-.
      destruct (inventory_element_Err _ _ _ _ E) as [Hc| ->];
        [exact (conversion_is_load_error _ Hc) | reflexivity].
  - intro H. injection H as <-. reflexivity.
Qed.

Lemma rows_Err (t : kind) (d : Defaults) (rows : list row)
    (acc : list (value * element)) (x : exn) :
  foldM (load_row t d) rows acc = Err x -> load_error x = true.
Proof.
  intro H. destruct (foldM_Err_step _ _ _ _ H) as (s' & r & _ & Hr).
  exact (load_row_Err _ _ _ _ _ Hr).
Qed.

Lemma resolve_all_Err (gs d : list (value * element)) (x : exn) :
  resolve_all gs d = Err x -> load_error x = true.
Proof.
  destruct (resolve_all_cases gs d) as [[-> _] | (g & _ & _ & ->)]; [discriminate|].
  intro H. injection H as <-. reflexivity.
Qed.

(** X15. The exceptions that leave [load] are [ValueError], [TypeError] and
    [OverflowError] (from [int()]), [AttributeError] (a [groups] cell without
    [split]), [KeyError] with a string key (the missing [name] field or an
    unresolved group name) and the [Exception] whose message is
    ["HOST name must not be empty"]; nothing else. *)
Theorem load_raises_only_its_own_errors (self : FlatDataInventory) (x : exn)
    (Hload : load self = Err x) :
  load_error x = true.
Proof.
  unfold load in Hload.
  destruct (load_defaults self) as [d|x0] eqn:Ed; cbn [bind] in Hload.
  - destruct (load_groups self d) as [gs|x0] eqn:Eg; cbn [bind] in Hload.
    + unfold load_hosts in Hload.
      destruct (foldM (load_row Host d) (hosts_data self) []) as [hs|x0] eqn:Eh;
        cbn [bind] in Hload.
      * destruct (resolve_all gs hs) as [hs'|x0] eqn:Er; cbn [bind] in Hload;
          [discriminate|].
        injection Hload as <-. exact (resolve_all_Err _ _ _ Er).
      * injection Hload as <-. exact (rows_Err _ _ _ _ _ Eh).
    + injection Hload as <-. unfold load_groups in Eg.
      destruct (groups_data self) as [|r rows]; [discriminate|].
      destruct (foldM (load_row Group d) (r :: rows) []) as [g0|x1] eqn:Ef;
        cbn [bind] in Eg.
      * exact (resolve_all_Err _ _ _ Eg).
      * injection Eg as <-. exact (rows_Err _ _ _ _ _ Ef).
  - injection Hload as <-. unfold load_defaults in Ed.
    destruct (defaults_data self) as [|kv data]; [discriminate|].
    exact (conversion_is_load_error _ (defaults_Err _ _ Ed)).
Qed.

Lemma defaults_Ok (data : row) (d : Defaults) :
  _get_defaults data = Ok d ->
  exists co,
    _get_host_netmiko_options data = Ok co /\
    d = mkDefaults (get data "hostname") (get data "port") (get data "username")
          (get data "password") (get data "platform") (_get_data data false) co.
Proof.
  unfold _get_defaults.
  destruct (coerce_int (get data "port")); cbn [bind]; [|discriminate].
  destruct (_get_host_netmiko_options data) as [co|x]; cbn [bind]; [|discriminate].
  intro H. injection H as <-. exists co. split; reflexivity.
Qed.

(** X16. The defaults of a returned inventory: the empty [Defaults()] when
    there is no defaults row; otherwise the record whose identity fields are
    the row's own cells (absent ones [None]), whose data mapping is that of
    the row without the [isDefaults] flag, and whose connection options are
    those of the row. *)
Theorem loaded_defaults_are_the_raw_row (self : FlatDataInventory) (inv : Inventory)
    (Hload : load self = Ok inv) :
  (defaults_data self = [] -> inv_defaults inv = Defaults_empty) /\
  (defaults_data self <> [] ->
   exists co,
     _get_host_netmiko_options (defaults_data self) = Ok co /\
     inv_defaults inv
     = mkDefaults (get (defaults_data self) "hostname")
         (get (defaults_data self) "port") (get (defaults_data self) "username")
         (get (defaults_data self) "password") (get (defaults_data self) "platform")
         (_get_data (defaults_data self) false) co).
Proof.
  destruct (load_Ok self inv Hload) as (Hd & _ & _).
  unfold load_defaults in Hd.
  destruct (defaults_data self) as [|kv data] eqn:E.
  - injection Hd as <-. split; [reflexivity | intro H; contradiction].
  - split; [discriminate|]. intros _. exact (defaults_Ok _ _ Hd).
Qed.

Lemma loaded_references (self : FlatDataInventory) (inv : Inventory) :
  load self = Ok inv ->
  forall k e g,
    In (k, e) (inv_groups inv) \/ In (k, e) (inv_hosts inv) ->
    In g (e_groups e) -> lookup py_eqb (VStr g) (inv_groups inv) <> None.
Proof.
  intros Hload k e g. unfold load in Hload.
  destruct (load_defaults self) as [d|x]; cbn [bind] in Hload; [|discriminate].
  destruct (load_groups self d) as [gs|x] eqn:Hgs; cbn [bind] in Hload; [|discriminate].
  unfold load_hosts in Hload.
  destruct (foldM (load_row Host d) (hosts_data self) []) as [hs|x];
    cbn [bind] in Hload; [|discriminate].
  destruct (resolve_all_cases gs hs) as [[Hres Hhosts] | (g' & _ & _ & Hres)];
    rewrite Hres in Hload; cbn [bind] in Hload; [|discriminate].
  injection Hload as <-. simpl.
  intros [Hin|Hin] Hg; [|exact (Hhosts k e g Hin Hg)].
  unfold load_groups in Hgs.
  destruct (groups_data self) as [|r rows]; [injection Hgs as <-; contradiction|].
  destruct (foldM (load_row Group d) (r :: rows) []) as [g0|x]; cbn [bind] in Hgs;
    [|discriminate].
  destruct (resolve_all_cases g0 g0) as [[Hres0 Hgroups] | (g' & _ & _ & Hres0)];
    rewrite Hres0 in Hgs; [|discriminate].
  injection Hgs as <-. exact (Hgroups k e g Hin Hg).
Qed.

(** X17. In a returned inventory, the entry found under the name of a host
    or group row whose [groups] cell is a non-empty string (and that no later
    row of its kind overwrites) lists the pieces of that cell between commas,
    in the order of the cell, and each piece is a key of the groups mapping;
    a row without the cell, or with a falsy one, gives an empty list. *)
Theorem loaded_groups_are_the_cell_in_order (self : FlatDataInventory)
    (inv : Inventory) (t : kind) (pre post : list row) (r : row) (n : value)
    (Hload : load self = Ok inv)
    (Hrows : match t with Group => groups_data self | Host => hosts_data self end
             = pre ++ r :: post)
    (Hname : lookup String.eqb "name" r = Some n)
    (Hlater : forall r' n', In r' post -> lookup String.eqb "name" r' = Some n' ->
                            py_eqb n' n = false) :
  exists e,
    lookup py_eqb n (match t with Group => inv_groups inv | Host => inv_hosts inv end)
    = Some e /\
    (truth (get r "groups") = false -> e_groups e = []) /\
    (forall s, get r "groups" = VStr s -> s <> "" ->
       e_groups e = Str.split "," s /\
       forall g, In g (Str.split "," s) ->
                 lookup py_eqb (VStr g) (inv_groups inv) <> None).
Proof.
  destruct (load_Ok self inv Hload) as (_ & Hg & Hh).
  assert (Hgen : forall acc,
             foldM (load_row t (inv_defaults inv)) (pre ++ r :: post) [] = Ok acc ->
             (forall k e, In (k, e) acc ->
                In (k, e) (inv_groups inv) \/ In (k, e) (inv_hosts inv)) ->
             exists e,
               lookup py_eqb n acc = Some e /\
               (truth (get r "groups") = false -> e_groups e = []) /\
               (forall s, get r "groups" = VStr s -> s <> "" ->
                  e_groups e = Str.split "," s /\
                  forall g, In g (Str.split "," s) ->
                            lookup py_eqb (VStr g) (inv_groups inv) <> None)).
  { intros acc Hfold Hsub.
    destruct (last_row_wins _ _ _ _ _ _ _ Hfold Hname Hlater) as (e & Hb & Hlook).
    destruct (inventory_element_Ok _ _ _ _ Hb) as (p & gs & co & _ & Hgs & _ & Heq).
    exists e. split; [exact Hlook|].
    assert (Hin : exists k, In (k, e) acc).
    { clear - Hlook. induction acc as [|[k0 e0] acc IH]; simpl in Hlook; [discriminate|].
      destruct (py_eqb k0 n).
      - injection Hlook as ->. exists k0. left. reflexivity.
      - destruct (IH Hlook) as [k Hk]. exists k. right. exact Hk. }
    destruct Hin as [k Hin].
    split.
    - intro Hf. rewrite Hf in Hgs. rewrite Heq. exact Hgs.
    - intros s Hs Hne. rewrite Hs in Hgs. simpl truth in Hgs.
      destruct (String.eqb s "") eqn:E; [apply String.eqb_eq in E; contradiction|].
      simpl in Hgs. destruct Hgs as (s' & Hs' & ->). injection Hs' as <-.
      assert (Hge : e_groups e = Str.split "," s) by (rewrite Heq; reflexivity).
      split; [exact Hge|].
      intros g Hing. rewrite <- Hge in Hing.
      exact (loaded_references self inv Hload k e g (Hsub k e Hin) Hing). }
  destruct t.
  - rewrite Hrows in Hh. apply (Hgen _ Hh). intros k e H. right. exact H.
  - rewrite Hrows in Hg. apply (Hgen _ Hg). intros k e H. left. exact H.
Qed.


(** *** When a row can be built, and where its fields go *)

Lemma netmiko_options_Ok_iff (data : row) :
  (exists co, _get_host_netmiko_options data = Ok co) <->
  (forall k v, In (k, v) data -> Str.contains netmiko_prefix k = true ->
               Str.mem (Str.replace netmiko_prefix "" k) int_keys = true ->
               exists z, py_int v = Ok z).
Proof.
  split.
  - intros [co Hco] k v Hin Hk Hint.
    destruct (py_int v) as [z|x] eqn:E; [eauto|]. exfalso.
    destruct (foldM_In_Err netmiko_step (k, v) data
                (fun acc => ex_intro _ x (netmiko_step_int_Err acc k v x Hk Hint E))
                Hin []) as [x' Hx'].
    unfold _get_host_netmiko_options in Hco. rewrite Hx' in Hco. discriminate Hco.
  - intro H. destruct (_get_host_netmiko_options data) as [co|x] eqn:E; [eauto|].
    exfalso. unfold _get_host_netmiko_options in E.
    destruct (foldM netmiko_step data []) as [opts|x'] eqn:Hfold; cbn [bind] in E.
    + destruct opts; discriminate.
    + destruct (netmiko_fold_Err_source data [] _ Hfold) as (k & v & Hin & Hk & Hint & Hv).
      destruct (H k v Hin Hk Hint) as [z Hz]. rewrite Hz in Hv. discriminate.
Qed.

Lemma coerce_int_Ok_iff (c : value) :
  (exists p, coerce_int c = Ok p) <->
  (truth c = true -> _empty c = false -> exists z, py_int c = Ok z).
Proof.
  unfold coerce_int. split.
  - intros [p Hp] Ht He. rewrite Ht, He in Hp. cbn [negb] in Hp.
    destruct (py_int c) as [z|x]; [eauto | discriminate].
  - intro H. destruct (truth c); [|eauto].
    destruct (_empty c); cbn [negb]; [eauto|].
    destruct (H eq_refl eq_refl) as [z ->]. cbn [bind]. eauto.
Qed.

(** X18. A host or group row is built exactly when: its [port] cell, if
    there, is falsy, empty or accepted by [int()]; its [groups] cell is
    falsy or a string; and [int()] accepts the cell of every field with the
    marker whose stripped name is an integer key. *)
Theorem element_is_built_iff (t : kind) (data : row) (d : Defaults) :
  (exists e, _get_inventory_element t data d = Ok e) <->
  (forall c, lookup String.eqb "port" data = Some c ->
             truth c = true -> _empty c = false -> exists z, py_int c = Ok z) /\
  (truth (get data "groups") = true -> exists s, get data "groups" = VStr s) /\
  (forall k v, In (k, v) data -> Str.contains netmiko_prefix k = true ->
               Str.mem (Str.replace netmiko_prefix "" k) int_keys = true ->
               exists z, py_int v = Ok z).
Proof.
  split.
  - intros [e He].
    destruct (inventory_element_Ok t data d e He) as (p & gs & co & Hp & Hgs & Hco & _).
    split; [|split].
    + intros c Hc. apply coerce_int_Ok_iff. exists p.
      unfold get_default in Hp. rewrite Hc in Hp. exact Hp.
    + intro Ht. rewrite Ht in Hgs. destruct Hgs as (s & Hs & _). eauto.
    + apply netmiko_options_Ok_iff. eauto.
  - intros (Hport & Hgroups & Hopts).
    assert (Hp : exists p, coerce_int (get_default data "port" (VInt 22)) = Ok p).
    { unfold get_default. destruct (lookup String.eqb "port" data) as [c|].
      - apply coerce_int_Ok_iff. exact (Hport c eq_refl).
      - exists (VInt 22). reflexivity. }
    destruct Hp as [p Hp].
    apply netmiko_options_Ok_iff in Hopts. destruct Hopts as [co Hco].
    unfold _get_inventory_element. rewrite Hp, Hco. cbn [bind].
    destruct (truth (get data "groups")).
    + destruct (Hgroups eq_refl) as [s ->]. cbn [bind]. eauto.
    + cbn [bind]. eauto.
Qed.

Lemma NoDup_lookup {V : Type} (k : string) (v : V) (d : list (string * V)) :
  NoDup (map fst d) -> In (k, v) d -> lookup String.eqb k d = Some v.
Proof.
  induction d as [|[k0 v0] d IH]; simpl; intros Hnd Hin; [contradiction|].
  inversion Hnd as [|k1 l Hk Hnd']; subst.
  destruct Hin as [H|H].
  - injection H as -> ->. rewrite String.eqb_refl. reflexivity.
  - destruct (String.eqb k0 k) eqn:E.
    + apply String.eqb_eq in E. subst k0. exfalso. apply Hk.
      apply (in_map fst) in H. exact H.
    + exact (IH Hnd' H).
Qed.

Lemma identity_field_has_no_marker (k : string) :
  Str.mem k identity_fields = true -> Str.contains netmiko_prefix k = false.
Proof.
  unfold Str.mem, identity_fields. simpl existsb. rewrite !orb_true_iff.
  intros [H|[H|[H|[H|[H|[H|H]]]]]]; try discriminate H;
    apply String.eqb_eq in H; subst k; reflexivity.
Qed.

Lemma netmiko_fold_present (data : row) (acc acc' : dict) :
  foldM netmiko_step data acc = Ok acc' ->
  (forall k, lookup String.eqb k acc <> None -> lookup String.eqb k acc' <> None) /\
  (forall k v, In (k, v) data -> Str.contains netmiko_prefix k = true ->
               lookup String.eqb (Str.replace netmiko_prefix "" k) acc' <> None).
Proof.
  revert acc. induction data as [|[k0 v0] data IH]; intro acc; cbn [foldM].
  - intro H. injection H as <-. split; [auto | intros k v []].
  - rewrite netmiko_step_extra_value.
    destruct (Str.contains netmiko_prefix k0) eqn:Hk0.
    + destruct (extra_value (Str.replace netmiko_prefix "" k0) v0) as [x|e];
        cbn [bind]; [|discriminate].
      intro H. destruct (IH _ H) as [Hkeep Hrest]. split.
      * intros k Hk. apply Hkeep.
        destruct (string_dec (Str.replace netmiko_prefix "" k0) k) as [<-|Hne].
        -- rewrite lookup_setitem_eq. discriminate.
        -- rewrite (lookup_setitem_neq _ _ _ _ Hne). exact Hk.
      * intros k v [Hin|Hin] Hk; [|exact (Hrest k v Hin Hk)].
        injection Hin as <- <-. apply Hkeep. rewrite lookup_setitem_eq. discriminate.
    + cbn [bind]. intro H. destruct (IH _ H) as [Hkeep Hrest]. split; [exact Hkeep|].
      intros k v [Hin|Hin] Hk; [|exact (Hrest k v Hin Hk)].
      injection Hin as <- <-. rewrite Hk in Hk0. discriminate.
Qed.

(** X19. The fields of a built host or group row (a dict: distinct keys) go
    to exactly one of three places: an identity field is in neither mapping;
    a field whose name holds the marker is kept out of the data mapping and
    has its stripped name among the extras of the [netmiko] connection; any
    other field - [groups] among them - is in the data mapping with its
    cell, [None] when the cell is empty. *)
Theorem row_fields_are_partitioned (t : kind) (data : row) (d : Defaults)
    (e : element) (Hkeys : NoDup (map fst data))
    (Hbuild : _get_inventory_element t data d = Ok e) :
  forall k v, In (k, v) data ->
    (Str.mem k identity_fields = true /\
     Str.contains netmiko_prefix k = false /\
     lookup String.eqb k (e_data e) = None) \/
    (Str.mem k identity_fields = false /\
     Str.contains netmiko_prefix k = true /\
     lookup String.eqb k (e_data e) = None /\
     exists opts, e_connection_options e = netmiko_entry opts /\
                  lookup String.eqb (Str.replace netmiko_prefix "" k) opts <> None) \/
    (Str.mem k identity_fields = false /\
     Str.contains netmiko_prefix k = false /\
     lookup String.eqb k (e_data e) = Some (if _empty v then VNone else v)).
Proof.
  intros k v Hin.
  destruct (inventory_element_Ok t data d e Hbuild) as (p & gs & co & _ & _ & Hco & ->).
  simpl e_data. simpl e_connection_options.
  rewrite (get_data_filter_map data false Hkeys).
  rewrite (lookup_filter_map (data_field false) none_if_empty).
  rewrite (NoDup_lookup k v data Hkeys Hin).
  unfold data_field. rewrite app_nil_r. fold identity_fields.
  destruct (Str.mem k identity_fields) eqn:Hid.
  - left. split; [reflexivity|]. split; [|reflexivity].
    exact (identity_field_has_no_marker k Hid).
  - right. destruct (Str.contains netmiko_prefix k) eqn:Hk.
    + left. split; [reflexivity|]. split; [reflexivity|]. split; [reflexivity|].
      destruct (netmiko_options_of_fold data co Hco) as (opts & Hfold & Hshape).
      pose proof (proj2 (netmiko_fold_present data [] opts Hfold) k v Hin Hk) as Hpres.
      exists opts. split; [|exact Hpres].
      destruct Hshape as [[-> _] | [_ ->]]; [exfalso; apply Hpres; reflexivity | reflexivity].
    + right. split; [reflexivity|]. split; reflexivity.
Qed.

(** *** Order of the mappings *)

Lemma setitem_new {V : Type} (n : value) (v : V) (d : list (value * V)) :
  (forall k, In k (map fst d) -> py_eqb k n = false) ->
  setitem py_eqb n v d = d ++ [(n, v)].
Proof.
  induction d as [|[k0 v0] d IH]; simpl; intro H; [reflexivity|].
  rewrite (H k0 (or_introl eq_refl)).
  rewrite IH; [reflexivity|]. intros k Hk. apply H. right. exact Hk.
Qed.

Lemma distinct_rows_append (t : kind) (d : Defaults) (rows : list row)
    (acc acc' : list (value * element)) :
  foldM (load_row t d) rows acc = Ok acc' ->
  ForallOrdPairs (fun a b => py_eqb a b = false) (map fst acc ++ names rows) ->
  map fst acc' = map fst acc ++ names rows.
Proof.
  revert acc. induction rows as [|r rows IH]; intro acc; cbn [foldM].
  - intros H _. injection H as <-. simpl. rewrite app_nil_r. reflexivity.
  - destruct (load_row t d acc r) as [acc1|x] eqn:E; cbn [bind]; [|discriminate].
    intros H Hdist.
    destruct (load_row_Ok _ _ _ _ _ E) as (n & e & Hn & _ & _ & ->).
    assert (Hname : get r "name" = n) by (unfold get, get_default; rewrite Hn; reflexivity).
    unfold names in *. simpl map in *. rewrite Hname in *.
    assert (Hnew : forall k, In k (map fst acc) -> py_eqb k n = false).
    { clear - Hdist. induction acc as [|[k0 e0] acc IHa]; simpl; intros k Hk; [contradiction|].
      simpl in Hdist. inversion Hdist as [|a l Hall Hrest]; subst.
      destruct Hk as [<-|Hk].
      - rewrite Forall_forall in Hall. apply Hall.
        apply in_or_app. right. left. reflexivity.
      - exact (IHa Hrest k Hk). }
    rewrite (setitem_new n e acc Hnew) in H.
    rewrite (IH _ H).
    + rewrite map_app. simpl. rewrite <- app_assoc. reflexivity.
    + rewrite map_app. simpl. rewrite <- app_assoc. exact Hdist.
Qed.

(** X20. When the names of the host rows are pairwise different, the hosts
    mapping of a returned inventory has one entry per row, keyed by the name
    cells in the order of the rows; the same for the group rows and the
    groups mapping. *)
Theorem distinct_names_keep_row_order (self : FlatDataInventory) (inv : Inventory)
    (Hload : load self = Ok inv) :
  (ForallOrdPairs (fun a b => py_eqb a b = false) (names (hosts_data self)) ->
   map fst (inv_hosts inv) = names (hosts_data self) /\
   List.length (inv_hosts inv) = List.length (hosts_data self)) /\
  (ForallOrdPairs (fun a b => py_eqb a b = false) (names (groups_data self)) ->
   map fst (inv_groups inv) = names (groups_data self) /\
   List.length (inv_groups inv) = List.length (groups_data self)).
Proof.
  destruct (load_Ok self inv Hload) as (_ & Hg & Hh).
  assert (Hgen : forall t rows acc,
             foldM (load_row t (inv_defaults inv)) rows [] = Ok acc ->
             ForallOrdPairs (fun a b => py_eqb a b = false) (names rows) ->
             map fst acc = names rows /\ List.length acc = List.length rows).
  { intros t rows acc Hfold Hdist.
    pose proof (distinct_rows_append t _ rows [] acc Hfold Hdist) as Hk.
    simpl in Hk. split; [exact Hk|].
    rewrite <- (length_map fst acc), Hk. unfold names. apply length_map. }
  split; intro Hdist.
  - exact (Hgen Host _ _ Hh Hdist).
  - exact (Hgen Group _ _ Hg Hdist).
Qed.

End Table.

(** ** The builtins on sample inputs *)

Open Scope list_scope.

Example contains_inside : Str.contains "netmiko_" "my_netmiko_x" = true.
Proof. reflexivity. Qed.

Example replace_every_occurrence :
  Str.replace "netmiko_" "" "netmiko_a_netmiko_b" = "a_b" /\
  Str.replace "netmiko_" "" "netmnetmiko_iko_x" = "netmiko_x".
Proof. split; reflexivity. Qed.

Example split_on_commas :
  Str.split "," "a,,b" = ["a"; ""; "b"] /\ Str.split "," "," = [""; ""] /\
  Str.split "," "a" = ["a"] /\ Str.split "," "" = [""].
Proof. repeat split; reflexivity. Qed.

Example to_int_numerals :
  Str.to_int " +3_0 " = Some 30 /\ Str.to_int "-007" = Some (-7) /\
  Str.to_int "0_0" = Some 0 /\ Str.to_int "1_2_3" = Some 123 /\
  Str.to_int (String "009"%char (String "1" (String "2" (String "010"%char ""))))
  = Some 12.
Proof. repeat split; reflexivity. Qed.

Example to_int_rejects :
  Forall (fun s => Str.to_int s = None)
    ["30.0"; ""; " "; "1__0"; "- 5"; "+ 5"; "5_"; "_5"; "5 6"; "--5"; "+-5"; "+";
     "-"; "0x10"; "1e3"; "abc"].
Proof. repeat constructor. Qed.

Example of_int_decimal :
  Str.of_int (-120) = "-120" /\ Str.of_int 0 = "0" /\ Str.of_int 22 = "22".
Proof. repeat split; reflexivity. Qed.

Example lower_ascii : Str.lower "FaLsE" = "false" /\ Str.lower "None" = "none".
Proof. split; reflexivity. Qed.

Example float_to_int :
  Float.to_int (S754_finite false 11 1) = Ok 22 /\
  Float.to_int (S754_finite true 15 (-2)) = Ok (-3) /\
  Float.to_int S754_nan = Err ValueError /\
  Float.to_int (S754_infinity false) = Err OverflowError.
Proof. repeat split; reflexivity. Qed.

Example keys_compare_as_numbers :
  py_eqb (VInt 1) (VBool true) = true /\
  py_eqb (VInt 1) (VFloat (S754_finite false 1 0)) = true /\
  py_eqb (VFloat (S754_finite false 4 (-2))) (VInt 1) = true /\
  py_eqb (VFloat (S754_zero true)) (VInt 0) = true /\
  py_eqb (VStr "1") (VInt 1) = false /\
  py_eqb (VFloat S754_nan) (VFloat S754_nan) = false.
Proof. repeat split; reflexivity. Qed.

(** The end-to-end scenario of the specification, as the code runs it: the
    host has port 22 (the key is absent), the group keeps the empty string. *)
Example load_end_to_end :
  exists inv,
    load no_floats
      (mkFlatDataInventory
         [[("name", VStr "r1"); ("hostname", VStr "10.0.0.1"); ("groups", VStr "core")]]
         [[("name", VStr "core"); ("port", VStr "")]]
         [("port", VInt 22); ("username", VStr "admin")])
    = Ok inv /\
    map fst (inv_hosts inv) = [VStr "r1"] /\
    map (fun kv => e_groups (snd kv)) (inv_hosts inv) = [["core"]] /\
    map (fun kv => e_port (snd kv)) (inv_hosts inv) = [VInt 22] /\
    map fst (inv_groups inv) = [VStr "core"] /\
    map (fun kv => e_groups (snd kv)) (inv_groups inv) = [[]] /\
    map (fun kv => e_port (snd kv)) (inv_groups inv) = [VStr ""] /\
    d_port (inv_defaults inv) = VInt 22.
Proof. eexists. repeat split. Qed.

(** ** Closed instances *)

(** The statement is not void: a string of one blank is not empty. *)
Lemma blank_string_is_not_empty : _empty (VStr " ") = false.
Proof.
  apply (proj2 (proj2 (proj2 (proj2 (proj2 empty_iff_none_nan_or_empty_string))))).
  reflexivity.
Defined.

(** A host row with a name only is built, with port 22. *)
Lemma absent_port_host_row :
  exists e, _get_inventory_element no_floats Host [("name", VStr "r1")] Defaults_empty
            = Ok e /\ e_port e = VInt 22.
Proof.
  eexists. split.
  - reflexivity.
  - apply (proj1 (absent_port_is_22_except_in_defaults no_floats
                    [("name", VStr "r1")] eq_refl) Host Defaults_empty).
    reflexivity.
Defined.

(** The group row [{"name": ""}] alone: [load] raises the [HOST name] error. *)
Lemma empty_group_name_load :
  load no_floats (mkFlatDataInventory [] [[("name", VStr "")]] [])
  = Err (Exception "HOST name must not be empty").
Proof.
  apply (proj1 (proj2 (proj2
           (empty_name_raises_HOST_name_error no_floats
              (mkFlatDataInventory [] [[("name", VStr "")]] [])
              [("name", VStr "")] (VStr "") eq_refl eq_refl)))
           Defaults_empty [] [] []); reflexivity.
Defined.

(** For the group row [{"name": ""}] the message of the exception is not
    ["group name must not be empty"]. *)
Lemma group_row_message_is_the_host_one :
  load no_floats (mkFlatDataInventory [] [[("name", VStr "")]] [])
  <> Err (Exception "group name must not be empty").
Proof. vm_compute. discriminate. Qed.

(** The host row [{"name": "r1", "groups": "core"}] without any group row:
    [load] raises [KeyError]. *)
Lemma unresolved_core_load :
  exists g, lookup py_eqb (VStr g) (@nil (value * element)) = None /\
            load no_floats
              (mkFlatDataInventory [[("name", VStr "r1"); ("groups", VStr "core")]] [] [])
            = Err (KeyError (VStr g)).
Proof.
  eapply (proj1 (proj2
            (unresolved_group_raises_KeyError no_floats
               (mkFlatDataInventory [[("name", VStr "r1"); ("groups", VStr "core")]] [] [])
               Defaults_empty eq_refl))).
  - reflexivity.
  - reflexivity.
  - left. reflexivity.
  - left. reflexivity.
  - reflexivity.
Defined.

(** The row [{"netmiko_timeout": "30"}]: the extras hold the integer 30. *)
Lemma netmiko_timeout_30 :
  _get_host_netmiko_options no_floats [("netmiko_timeout", VStr "30")]
  = Ok (netmiko_entry [("timeout", VInt 30)]) /\
  exists extra_opts,
    netmiko_entry [("timeout", VInt 30)] = netmiko_entry extra_opts /\
    lookup String.eqb "timeout" extra_opts = Some (VInt 30).
Proof.
  split; [reflexivity|].
  apply (proj2 (proj2
           (int_suffix_value_is_converted no_floats
              [("netmiko_timeout", VStr "30")] "timeout" (VStr "30")
              (or_introl eq_refl) (or_introl eq_refl)))
           "30" 30 [] [] _ eq_refl eq_refl eq_refl).
  - intros k' v' [].
  - reflexivity.
Defined.

(** A group row without the [name] key: [load] raises [KeyError('name')]. *)
Lemma nameless_group_row_load :
  load no_floats (mkFlatDataInventory [] [[("hostname", VStr "10.0.0.1")]] [])
  = Err (KeyError (VStr "name")).
Proof.
  apply (proj1 (proj2 (proj2
           (missing_name_key_raises_KeyError no_floats
              (mkFlatDataInventory [] [[("hostname", VStr "10.0.0.1")]] [])
              [("hostname", VStr "10.0.0.1")] eq_refl)))
           Defaults_empty [] [] []); reflexivity.
Defined.

(** ** Closed instances of the further properties *)

Lemma data_mapping_of_a_host_row :
  _get_data [("name", VStr "r1"); ("site", VStr ""); ("netmiko_timeout", VStr "5");
             ("role", VStr "core")] false
  = [("site", VNone); ("role", VStr "core")].
Proof.
  refine (proj1 (data_mapping_is_the_filtered_row
                   [("name", VStr "r1"); ("site", VStr "");
                    ("netmiko_timeout", VStr "5"); ("role", VStr "core")] false _)).
  repeat constructor; simpl; intuition discriminate.
Defined.

Lemma connection_options_of_two_names :
  map fst (_get_connection_options
             [("netmiko", [("extras", Mapping [("timeout", VInt 5)])]);
              ("ssh", [("port", Scalar (VInt 22))])])
  = ["netmiko"; "ssh"].
Proof.
  refine (proj2 (connection_options_follow_the_option_dicts
                   [("netmiko", [("extras", Mapping [("timeout", VInt 5)])]);
                    ("ssh", [("port", Scalar (VInt 22))])] _)).
  repeat constructor; simpl; intuition discriminate.
Defined.

Lemma timeout_entry_comes_from_its_field :
  exists k v,
    In (k, v) [("netmiko_timeout", VStr "30")] /\
    Str.contains netmiko_prefix k = true /\
    Str.replace netmiko_prefix "" k = "timeout" /\
    extra_value no_floats "timeout" v = Ok (VInt 30).
Proof.
  exact (extras_come_from_marked_fields no_floats
           [("netmiko_timeout", VStr "30")] [("timeout", VInt 30)] eq_refl
           "timeout" (VInt 30) eq_refl).
Defined.

Lemma blank_fast_cli_is_true :
  exists opts,
    _get_host_netmiko_options no_floats [("netmiko_fast_cli", VStr "")]
    = Ok (netmiko_entry opts) /\
    lookup String.eqb "fast_cli" opts = Some (VBool true).
Proof.
  destruct (fast_cli_is_false_for_0_false_none no_floats [] []
              "netmiko_fast_cli" (VStr "") (netmiko_entry [("fast_cli", VBool true)])
              eq_refl eq_refl (fun k' v' (H : In (k', v') []) => False_ind _ H) eq_refl)
    as (opts & Heq & _ & _ & Htrue).
  exists opts. split.
  - rewrite <- Heq. reflexivity.
  - apply Htrue. left. reflexivity.
Defined.

Lemma blank_secret_passes_as_None :
  exists opts,
    netmiko_entry [("secret", VNone)] = netmiko_entry opts /\
    lookup String.eqb "secret" opts = Some VNone.
Proof.
  apply (other_marked_fields_pass_through no_floats [] []
           "netmiko_secret" (VStr "") (netmiko_entry [("secret", VNone)])
           eq_refl eq_refl eq_refl).
  - intros k' v' [].
  - reflexivity.
Defined.

Lemma groups_cell_with_blanks :
  exists e,
    _get_inventory_element no_floats Host
      [("name", VStr "r1"); ("groups", VStr "a, b,,a")] Defaults_empty = Ok e /\
    e_groups e = ["a"; " b"; ""; "a"] /\
    String.concat "," (e_groups e) = "a, b,,a".
Proof.
  eexists. split; [reflexivity|].
  destruct (proj2 (groups_cell_is_split_on_commas no_floats Host
                     [("name", VStr "r1"); ("groups", VStr "a, b,,a")]
                     Defaults_empty _ eq_refl)
              "a, b,,a" eq_refl ltac:(discriminate)) as (H1 & _ & H3 & _).
  split; [exact H1 | exact H3].
Defined.

Lemma nan_groups_cell_raises :
  _get_inventory_element no_floats Host
    [("name", VStr "r1"); ("groups", VFloat S754_nan)] Defaults_empty
  = Err AttributeError.
Proof.
  apply (non_string_groups_cell_raises no_floats Host
           [("name", VStr "r1"); ("groups", VFloat S754_nan)] Defaults_empty
           (VInt 22) eq_refl eq_refl).
  intros s. discriminate.
Defined.

Lemma port_ssh_raises_ValueError :
  _get_inventory_element no_floats Host
    [("name", VStr "r1"); ("port", VStr "ssh")] Defaults_empty = Err ValueError /\
  _get_defaults no_floats [("name", VStr "r1"); ("port", VStr "ssh")] = Err ValueError.
Proof.
  destruct (port_conversion_error_propagates no_floats
              [("name", VStr "r1"); ("port", VStr "ssh")] (VStr "ssh") ValueError
              eq_refl eq_refl eq_refl eq_refl) as [H1 H2].
  split; [apply H1 | exact H2].
Defined.

Lemma nan_cells_are_unset :
  exists e,
    _get_inventory_element no_floats Host
      [("name", VStr "r1"); ("hostname", VFloat S754_nan); ("port", VFloat S754_nan)]
      Defaults_empty = Ok e /\
    e_hostname e = VNone /\ e_port e = VNone.
Proof.
  eexists. split; [reflexivity|].
  destruct (identity_fields_unset_iff_none_or_nan no_floats Host
              [("name", VStr "r1"); ("hostname", VFloat S754_nan);
               ("port", VFloat S754_nan)] Defaults_empty _ eq_refl)
    as (Hh & _ & _ & _ & Hp & _).
  split.
  - apply Hh. reflexivity.
  - apply Hp. exists (VFloat S754_nan). split; reflexivity.
Defined.

Lemma loaded_host_is_keyed :
  exists inv,
    load no_floats
      (mkFlatDataInventory [[("name", VStr "r1")]] [[("name", VStr "core")]] [])
    = Ok inv /\
    lookup py_eqb (VStr "r1") (inv_hosts inv) <> None.
Proof.
  eexists. split; [reflexivity|].
  destruct (proj2 (every_row_name_is_a_key no_floats
                     (mkFlatDataInventory [[("name", VStr "r1")]]
                        [[("name", VStr "core")]] []) _ eq_refl)
              [("name", VStr "r1")] (or_introl eq_refl)) as (n & Hn & _ & Hl).
  simpl in Hn. injection Hn as <-. exact Hl.
Defined.

Lemma loaded_hosts_are_hosts :
  exists inv,
    load no_floats
      (mkFlatDataInventory [[("name", VStr "r1")]] [[("name", VStr "core")]] [])
    = Ok inv /\
    forall k e, In (k, e) (inv_hosts inv) ->
                e_typ e = Host /\ e_defaults e = inv_defaults inv.
Proof.
  eexists. split; [reflexivity|].
  intros k e Hin.
  destruct (every_entry_is_built_from_a_row no_floats
              (mkFlatDataInventory [[("name", VStr "r1")]]
                 [[("name", VStr "core")]] []) _ eq_refl Host k e Hin)
    as (H1 & H2 & _).
  split; [exact H1 | exact H2].
Defined.

Lemma second_row_of_r1_wins :
  exists inv e,
    load no_floats
      (mkFlatDataInventory
         [[("name", VStr "r1"); ("hostname", VStr "a")];
          [("name", VStr "r1"); ("hostname", VStr "b")]] [] [])
    = Ok inv /\
    lookup py_eqb (VStr "r1") (inv_hosts inv) = Some e /\
    e_hostname e = VStr "b".
Proof.
  destruct (last_row_of_a_name_wins no_floats
              (mkFlatDataInventory
                 [[("name", VStr "r1"); ("hostname", VStr "a")];
                  [("name", VStr "r1"); ("hostname", VStr "b")]] [] [])
              _ Host [[("name", VStr "r1"); ("hostname", VStr "a")]] []
              [("name", VStr "r1"); ("hostname", VStr "b")] (VStr "r1")
              eq_refl eq_refl eq_refl
              (fun r' n' (H : In r' []) => False_ind _ H))
    as (e & Hb & Hl).
  eexists. exists e. split; [reflexivity|]. split; [exact Hl|].
  vm_compute in Hb. injection Hb as <-. reflexivity.
Defined.

Lemma empty_group_name_is_a_load_error :
  load_error (Exception "HOST name must not be empty") = true.
Proof.
  exact (load_raises_only_its_own_errors no_floats
           (mkFlatDataInventory [] [[("name", VStr "")]] []) _ eq_refl).
Defined.

Lemma loaded_defaults_keep_the_port_text :
  exists inv,
    load no_floats (mkFlatDataInventory [] [] [("port", VStr "22")]) = Ok inv /\
    d_port (inv_defaults inv) = VStr "22".
Proof.
  eexists. split; [reflexivity|].
  destruct (proj2 (loaded_defaults_are_the_raw_row no_floats
                     (mkFlatDataInventory [] [] [("port", VStr "22")]) _ eq_refl)
              ltac:(discriminate)) as (co & _ & Heq).
  rewrite Heq. reflexivity.
Defined.

Lemma host_of_groups_a_b :
  exists inv e,
    load no_floats
      (mkFlatDataInventory [[("name", VStr "r1"); ("groups", VStr "a,b")]]
         [[("name", VStr "a")]; [("name", VStr "b")]] [])
    = Ok inv /\
    lookup py_eqb (VStr "r1") (inv_hosts inv) = Some e /\
    e_groups e = ["a"; "b"].
Proof.
  destruct (loaded_groups_are_the_cell_in_order no_floats
              (mkFlatDataInventory [[("name", VStr "r1"); ("groups", VStr "a,b")]]
                 [[("name", VStr "a")]; [("name", VStr "b")]] [])
              _ Host [] [] [("name", VStr "r1"); ("groups", VStr "a,b")] (VStr "r1")
              eq_refl eq_refl eq_refl
              (fun r' n' (H : In r' []) => False_ind _ H))
    as (e & Hl & _ & Hs).
  eexists. exists e. split; [reflexivity|]. split; [exact Hl|].
  exact (proj1 (Hs "a,b" eq_refl ltac:(discriminate))).
Defined.

Lemma site_field_goes_to_data :
  exists e,
    _get_inventory_element no_floats Host
      [("name", VStr "r1"); ("netmiko_timeout", VStr "5"); ("site", VStr "")]
      Defaults_empty = Ok e /\
    lookup String.eqb "site" (e_data e) = Some VNone.
Proof.
  eexists. split; [reflexivity|].
  assert (Hkeys : NoDup (map fst [("name", VStr "r1"); ("netmiko_timeout", VStr "5");
                                  ("site", VStr "")]))
    by (repeat constructor; simpl; intuition discriminate).
  destruct (row_fields_are_partitioned no_floats Host
              [("name", VStr "r1"); ("netmiko_timeout", VStr "5"); ("site", VStr "")]
              Defaults_empty _ Hkeys eq_refl "site" (VStr "")
              (or_intror (or_intror (or_introl eq_refl))))
    as [(H & _) | [(_ & H & _) | (_ & _ & H)]].
  - discriminate H.
  - discriminate H.
  - exact H.
Defined.

Lemma two_hosts_in_row_order :
  exists inv,
    load no_floats
      (mkFlatDataInventory [[("name", VStr "r2")]; [("name", VStr "r1")]] [] [])
    = Ok inv /\
    map fst (inv_hosts inv) = [VStr "r2"; VStr "r1"].
Proof.
  eexists. split; [reflexivity|].
  apply (proj1 (distinct_names_keep_row_order no_floats
                  (mkFlatDataInventory [[("name", VStr "r2")]; [("name", VStr "r1")]]
                     [] []) _ eq_refl)).
  repeat constructor.
Defined.
